(** * stats.js: the performance panel and its overlay

    A shallow embedding of [src/Stats.js].  The file has two parts: the
    [StatsPanel] factory, which owns a canvas and redraws a scrolling bar
    graph on every [update], and the [Stats] factory, which owns a container
    element, registers panels in it and shows one of them at a time.

    JavaScript numbers are IEEE 754 binary64 values; they are modelled by the
    Standard Library's [spec_float] at precision 53 and maximal exponent
    1024, so that [Infinity], [NaN], the two zeros and the rounding of every
    arithmetic operation are those of the language.  The 2D drawing context
    and the DOM are the browser's: the context is modelled by its drawing
    state and the list of drawing calls that returned, the DOM by a store
    of elements addressed by node identity.  A call of the browser that
    throws ends the function that made it: such a function returns an
    [Outcome]. *)

From Stdlib Require Import ZArith Bool List String Lia.
From Stdlib Require Import Floats.SpecFloat DecimalString.
From stdpp Require Import base option list strings gmap.

Local Open Scope string_scope.

(* ================================================================= *)
(** ** JavaScript numbers *)

Module JSNumber.

Definition num : Type := spec_float.

Definition prec : Z := 53.
Definition emax : Z := 1024.

Definition NaN : num := S754_nan.
Definition Infinity : num := S754_infinity false.
Definition neg_Infinity : num := S754_infinity true.

(** An integer literal of the source, rounded to the nearest double. *)
Definition of_Z (z : Z) : num := binary_normalize prec emax z 0 false.

Definition add : num -> num -> num := SFadd prec emax.
Definition sub : num -> num -> num := SFsub prec emax.
Definition mul : num -> num -> num := SFmul prec emax.
Definition div : num -> num -> num := SFdiv prec emax.

(** The relational operators [<], [<=] and [>=] on numbers; every
    comparison with [NaN] is false. *)
Definition lt : num -> num -> bool := SFltb.
Definition le : num -> num -> bool := SFleb.
Definition ge (x y : num) : bool := SFleb y x.

Definition isNaN (x : num) : bool :=
  match x with S754_nan => true | _ => false end.

(** [Number.isFinite]. *)
Definition isFinite (x : num) : bool :=
  match x with
  | S754_zero _ | S754_finite _ _ _ => true
  | S754_infinity _ | S754_nan => false
  end.

(** A genuine double: the mantissa and exponent are in canonical form. *)
Definition valid (x : num) : bool := valid_binary prec emax x.

(** ToBoolean on a number: zero (of either sign) and [NaN] are falsy. *)
Definition truthy (x : num) : bool :=
  match x with
  | S754_zero _ | S754_nan => false
  | _ => true
  end.

Definition is_neg_zero (x : num) : bool :=
  match x with S754_zero true => true | _ => false end.

Definition is_pos_zero (x : num) : bool :=
  match x with S754_zero false => true | _ => false end.

(** [Math.min]: the loop of ECMA-262 over the coerced arguments.  [None]
    stands for the early [return NaN]. *)
Fixpoint min_loop (lowest : num) (coerced : list num) : option num :=
  match coerced with
  | [] => Some lowest
  | number :: rest =>
      if isNaN number then None
      else
        let lowest :=
          if is_neg_zero number && is_pos_zero lowest
          then S754_zero true else lowest in
        let lowest := if lt number lowest then number else lowest in
        min_loop lowest rest
  end.

Definition Math_min (args : list num) : num :=
  match min_loop Infinity args with
  | Some lowest => lowest
  | None => NaN
  end.

(** [Math.max], the mirror image. *)
Fixpoint max_loop (highest : num) (coerced : list num) : option num :=
  match coerced with
  | [] => Some highest
  | number :: rest =>
      if isNaN number then None
      else
        let highest :=
          if is_pos_zero number && is_neg_zero highest
          then S754_zero false else highest in
        let highest := if lt highest number then number else highest in
        max_loop highest rest
  end.

Definition Math_max (args : list num) : num :=
  match max_loop neg_Infinity args with
  | Some highest => highest
  | None => NaN
  end.

(** The integer nearest to the double [(-1)^s * m * 2^e], ties going
    towards plus infinity: [floor (x + 1/2)], computed exactly. *)
Definition nearest_integer (s : bool) (m : positive) (e : Z) : Z :=
  (if 0 <=? e
   then cond_Zopp s (Zpos m * 2 ^ e)
   else (2 * cond_Zopp s (Zpos m) + 2 ^ (- e)) / (2 * 2 ^ (- e)))%Z.

(** [Math.round]: non-finite and integral numbers are returned as they
    are; a number that rounds to zero gives the zero of its own sign. *)
Definition Math_round (x : num) : num :=
  match x with
  | S754_finite s m e =>
      if (0 <=? e)%Z then x
      else
        match nearest_integer s m e with
        | Z0 => S754_zero s
        | n => of_Z n
        end
  | _ => x
  end.

(** The mathematical value of a double when it is an integer. *)
Definition to_integer (x : num) : option Z :=
  match x with
  | S754_zero _ => Some 0%Z
  | S754_finite s m e =>
      if (0 <=? e)%Z then Some (cond_Zopp s (Zpos m * 2 ^ e))
      else if (Zpos m mod 2 ^ (- e) =? 0)%Z
           then Some (cond_Zopp s (Zpos m / 2 ^ (- e)))
           else None
  | _ => None
  end.

(** The integer part of a finite double, rounded towards zero. *)
Definition integer_part (x : num) : Z :=
  match x with
  | S754_finite s m e =>
      cond_Zopp s (if (0 <=? e)%Z then Zpos m * 2 ^ e
                   else Zpos m / 2 ^ (- e))%Z
  | _ => 0%Z
  end.

(** The conversion of a number to a Web IDL [unsigned long]: [NaN], the
    zeros and the infinities give 0, the others their integer part modulo
    2^32. *)
Definition to_unsigned_long (x : num) : Z := (integer_part x mod 2 ^ 32)%Z.

Section ToString.

(** Number::toString prints the shortest decimal that reads back as the
    same double.  For an integer below 2^53 that is the integer's own
    decimal digits; the rendering of the other finite numbers is the
    runtime's and is taken as a parameter. *)
Variable shortest_decimal : num -> string.

Definition Number_toString (x : num) : string :=
  match x with
  | S754_nan => "NaN"
  | S754_infinity false => "Infinity"
  | S754_infinity true => "-Infinity"
  | _ =>
      match to_integer x with
      | Some z =>
          if (Z.abs z <? 2 ^ 53)%Z
          then NilZero.string_of_int (Z.to_int z)
          else shortest_decimal x
      | None => shortest_decimal x
      end
  end.

End ToString.

End JSNumber.

Import JSNumber.

Declare Scope num_scope.
Delimit Scope num_scope with num.
Bind Scope num_scope with num.
Infix "+" := add : num_scope.
Infix "-" := sub : num_scope.
Infix "*" := mul : num_scope.
Infix "/" := div : num_scope.

(** The environment a page gives to the script: the two properties of
    [window] that the factories read, and the runtime's printing of the
    numbers that are not small integers. *)
Record Env := {
  devicePixelRatio : option num;      (* [None]: the property is undefined *)
  performance_memory : bool;          (* [window.performance && window.performance.memory] is truthy *)
  shortest_decimal : num -> string
}.

(** [${x}] in a template literal, for a number [x]. *)
Definition template (env : Env) (x : num) : string :=
  Number_toString (shortest_decimal env) x.

(* ================================================================= *)
(** ** Calls that may throw *)

(** How a call ended, with the state it left: it returned, or it threw the
    named exception. *)
Inductive Outcome (A : Type) : Type :=
| Returned (a : A)
| Thrown (error : string) (a : A).

Arguments Returned {A} a.
Arguments Thrown {A} error a.

Definition after {A : Type} (o : Outcome A) : A :=
  match o with Returned a => a | Thrown _ a => a end.

Definition thrown {A : Type} (o : Outcome A) : option string :=
  match o with Returned _ => None | Thrown error _ => Some error end.

(* ================================================================= *)
(** ** The DOM: elements with identity, inline style and children *)

Module Dom.

Definition node : Type := nat.

Record Element := {
  tagName : string;
  cssText : string;        (* [style.cssText] as last assigned *)
  display : string;        (* [style.display]; empty when not set *)
  children : list node
}.

Record Document := {
  elements : gmap node Element;
  fresh : node
}.

Definition empty_document : Document :=
  {| elements := ∅; fresh := 0 |}.

(** [document.createElement(tag)]: a new element with no inline style and
    no children. *)
Definition createElement (tag : string) (d : Document) : node * Document :=
  (fresh d,
   {| elements :=
        <[fresh d := {| tagName := tag; cssText := ""; display := "";
                        children := [] |}]> (elements d);
      fresh := S (fresh d) |}).

(** [el.style.cssText = text].  The assignment replaces the whole inline
    declaration; the texts this program assigns declare no [display], so
    that property is left unset. *)
Definition set_cssText (n : node) (text : string) (d : Document) : Document :=
  {| elements :=
       alter (fun e => {| tagName := tagName e; cssText := text;
                          display := ""; children := children e |})
             n (elements d);
     fresh := fresh d |}.

(** [el.style.display = value]. *)
Definition set_display (n : node) (value : string) (d : Document) : Document :=
  {| elements :=
       alter (fun e => {| tagName := tagName e; cssText := cssText e;
                          display := value; children := children e |})
             n (elements d);
     fresh := fresh d |}.

Definition detach (child : node) (e : Element) : Element :=
  {| tagName := tagName e; cssText := cssText e; display := display e;
     children := filter (fun c => c ≠ child) (children e) |}.

Definition attach (child : node) (e : Element) : Element :=
  {| tagName := tagName e; cssText := cssText e; display := display e;
     children := children e ++ [child] |}.

(** [parent.appendChild(child)] when the DOM accepts the child: the child
    is first removed from the element that holds it, if any, and then
    becomes the last child of [parent].  The DOM throws HierarchyRequestError
    and changes nothing when [child] is [parent] or contains it; this
    function is the document after an accepted call, for a child with
    [~ contains d child parent]. *)
Definition appendChild (parent child : node) (d : Document) : Document :=
  {| elements := alter (attach child) parent (detach child <$> elements d);
     fresh := fresh d |}.

Definition children_of (d : Document) (n : node) : list node :=
  default [] (children <$> elements d !! n).

Definition display_of (d : Document) (n : node) : string :=
  default "" (display <$> elements d !! n).

(** An element is rendered unless its inline [display] is ['none']. *)
Definition visible (d : Document) (n : node) : bool :=
  negb (String.eqb (display_of d n) "none").

(** [contains d a b]: [b] is [a] or a descendant of [a]. *)
Inductive contains (d : Document) : node -> node -> Prop :=
| contains_self (n : node) : contains d n n
| contains_child (a c b : node) :
    c ∈ children_of d a -> contains d c b -> contains d a b.

End Dom.

Import Dom.

(* ================================================================= *)
(** ** The 2D drawing context *)

Module Canvas.

(** [canvas.width = x] and [canvas.height = x].  The attributes are
    unsigned longs that reflect the content attributes: the number is
    converted to an unsigned long and kept when it is at most 2147483647;
    otherwise the attribute takes its default, 300 for the width and 150
    for the height. *)
Definition reflect_dimension (default : Z) (x : num) : Z :=
  let n := to_unsigned_long x in
  if (n <=? 2147483647)%Z then n else default.

(** A drawing call that returned, with its arguments and the part of the
    drawing state it paints with.  (A call with an argument that is not
    finite returns too, and paints nothing.) *)
Inductive Call :=
| FillRect (fillStyle : string) (globalAlpha : num) (x y w h : num)
| FillText (fillStyle : string) (globalAlpha : num)
           (font textBaseline : string) (text : string) (x y : num)
| DrawImage (globalAlpha : num) (image : node)
            (sx sy sWidth sHeight dx dy dWidth dHeight : num).

Record Context2D := {
  fillStyle : string;
  globalAlpha : num;
  font : string;
  textBaseline : string;
  calls : list Call          (* the calls that returned, oldest first *)
}.

(** [canvas.getContext('2d')] on a new canvas.  Assignments to the
    properties of the context are kept as written: the colours, fonts and
    opacities of this program are ones the canvas accepts. *)
Definition getContext : Context2D :=
  {| fillStyle := "#000000"; globalAlpha := of_Z 1;
     font := "10px sans-serif"; textBaseline := "alphabetic";
     calls := [] |}.

Definition set_fillStyle (v : string) (c : Context2D) : Context2D :=
  {| fillStyle := v; globalAlpha := globalAlpha c; font := font c;
     textBaseline := textBaseline c; calls := calls c |}.

Definition set_globalAlpha (v : num) (c : Context2D) : Context2D :=
  {| fillStyle := fillStyle c; globalAlpha := v; font := font c;
     textBaseline := textBaseline c; calls := calls c |}.

Definition set_font (v : string) (c : Context2D) : Context2D :=
  {| fillStyle := fillStyle c; globalAlpha := globalAlpha c; font := v;
     textBaseline := textBaseline c; calls := calls c |}.

Definition set_textBaseline (v : string) (c : Context2D) : Context2D :=
  {| fillStyle := fillStyle c; globalAlpha := globalAlpha c; font := font c;
     textBaseline := v; calls := calls c |}.

Definition emit (k : Call) (c : Context2D) : Context2D :=
  {| fillStyle := fillStyle c; globalAlpha := globalAlpha c; font := font c;
     textBaseline := textBaseline c; calls := calls c ++ [k] |}.

Definition fillRect (x y w h : num) (c : Context2D) : Context2D :=
  emit (FillRect (fillStyle c) (globalAlpha c) x y w h) c.

Definition fillText (text : string) (x y : num) (c : Context2D) : Context2D :=
  emit (FillText (fillStyle c) (globalAlpha c) (font c) (textBaseline c)
                 text x y) c.

(** [drawImage] of a canvas whose bitmap is [image_width] by
    [image_height], in the order of the HTML standard: with an argument that
    is not finite the call returns; otherwise the image is checked, and a
    canvas with a zero dimension is not usable as an image: the call throws
    InvalidStateError. *)
Definition drawImage (image : node) (image_width image_height : Z)
    (sx sy sw sh dx dy dw dh : num) (c : Context2D) : Outcome Context2D :=
  if forallb isFinite [sx; sy; sw; sh; dx; dy; dw; dh] &&
     ((image_width =? 0)%Z || (image_height =? 0)%Z)
  then Thrown "InvalidStateError" c
  else Returned
         (emit (DrawImage (globalAlpha c) image sx sy sw sh dx dy dw dh) c).

(** The literal [0.9]: the double nearest to nine tenths, which is what the
    correctly rounded division of 9 by 10 gives. *)
Definition nine_tenths : num := (of_Z 9 / of_Z 10)%num.

End Canvas.

Import Canvas.

(** Statements on the context, in program order. *)
Notation "c '|>' f" := (f c) (at level 45, left associativity, only parsing).

(* ================================================================= *)
(** ** StatsPanel *)

Module Panel.

(** The variables of one [StatsPanel] call (its parameters, [min], [max],
    the constants, the canvas and its context) together with the method
    [evaluateStatsColor] of the object it returns, which the host may
    replace. *)
Record t := {
  name : string;
  fg : string;
  bg : string;
  width : num;
  height : num;
  showMaximum : bool;
  min : num;
  max : num;
  PR : num;
  WIDTH : num;
  HEIGHT : num;
  TEXT_X : num;
  TEXT_Y : num;
  GRAPH_X : num;
  GRAPH_Y : num;
  GRAPH_WIDTH : num;
  GRAPH_HEIGHT : num;
  canvas : node;
  canvas_width : Z;          (* [canvas.width], an unsigned long *)
  canvas_height : Z;         (* [canvas.height] *)
  context : Context2D;
  evaluateStatsColor : num -> num -> string
}.

(** The [dom] property of the returned object. *)
Definition dom (p : t) : node := canvas p.

(** [round(window.devicePixelRatio || 1)]. *)
Definition pixel_ratio (env : Env) : num :=
  Math_round
    match devicePixelRatio env with
    | Some r => if truthy r then r else of_Z 1
    | None => of_Z 1
    end.

Definition StatsPanel (env : Env) (name fg bg : string) (width height : num)
    (showMaximum : bool) (d : Document) : t * Document :=
  let min := Infinity in
  let max := of_Z 0 in
  let PR := pixel_ratio env in
  let WIDTH := (width * PR)%num in
  let HEIGHT := (height * PR)%num in
  let TEXT_X := (of_Z 3 * PR)%num in
  let TEXT_Y := (of_Z 2 * (height / of_Z 48) * PR)%num in
  let GRAPH_X := (of_Z 3 * PR)%num in
  let GRAPH_Y := (of_Z 15 * PR)%num in
  let GRAPH_WIDTH := ((width - of_Z 6) * PR)%num in
  let GRAPH_HEIGHT := ((height - of_Z 18) * (height / of_Z 48) * PR)%num in
  let '(canvas, d) := createElement "canvas" d in
  let d := set_cssText canvas
             ("width:" +:+ template env width +:+ "px;height:" +:+
              template env height +:+ "px") d in
  let context :=
    getContext
    |> set_font ("bold " +:+
                 template env (of_Z 9 * PR * (height / of_Z 48))%num +:+
                 "px Helvetica,Arial,sans-serif")
    |> set_textBaseline "top"
    |> set_fillStyle bg
    |> fillRect (of_Z 0) (of_Z 0) WIDTH HEIGHT
    |> set_fillStyle fg
    |> fillText name TEXT_X TEXT_Y
    |> fillRect GRAPH_X GRAPH_Y GRAPH_WIDTH GRAPH_HEIGHT
    |> set_fillStyle bg
    |> set_globalAlpha nine_tenths
    |> fillRect GRAPH_X GRAPH_Y GRAPH_WIDTH GRAPH_HEIGHT in
  ({| name := name; fg := fg; bg := bg; width := width; height := height;
      showMaximum := showMaximum; min := min; max := max; PR := PR;
      WIDTH := WIDTH; HEIGHT := HEIGHT; TEXT_X := TEXT_X; TEXT_Y := TEXT_Y;
      GRAPH_X := GRAPH_X; GRAPH_Y := GRAPH_Y; GRAPH_WIDTH := GRAPH_WIDTH;
      GRAPH_HEIGHT := GRAPH_HEIGHT; canvas := canvas;
      canvas_width := reflect_dimension 300 WIDTH;
      canvas_height := reflect_dimension 150 HEIGHT; context := context;
      evaluateStatsColor := fun _ _ => fg |},
   d).

(** [update(value, maxValue)].  When its [drawImage] throws, the exception
    leaves [update] at once, with the statistics assigned and the header
    drawn. *)
Definition update (env : Env) (value maxValue : num) (p : t) : Outcome t :=
  let min := Math_min [min p; value] in
  let max := Math_max [max p; value] in
  let leave context :=
    {| name := name p; fg := fg p; bg := bg p; width := width p;
       height := height p; showMaximum := showMaximum p;
       min := min; max := max; PR := PR p;
       WIDTH := WIDTH p; HEIGHT := HEIGHT p; TEXT_X := TEXT_X p;
       TEXT_Y := TEXT_Y p; GRAPH_X := GRAPH_X p; GRAPH_Y := GRAPH_Y p;
       GRAPH_WIDTH := GRAPH_WIDTH p; GRAPH_HEIGHT := GRAPH_HEIGHT p;
       canvas := canvas p; canvas_width := canvas_width p;
       canvas_height := canvas_height p; context := context;
       evaluateStatsColor := evaluateStatsColor p |} in
  let context :=
    context p
    |> set_fillStyle (bg p)
    |> set_globalAlpha (of_Z 1)
    |> fillRect (of_Z 0) (of_Z 0) (WIDTH p) (GRAPH_Y p)
    |> set_fillStyle (evaluateStatsColor p value maxValue)
    |> (if showMaximum p
        then fillText
               (template env (Math_round value) +:+ name p +:+ " (" +:+
                template env (Math_round min) +:+ "-" +:+
                template env (Math_round max) +:+ ")/" +:+
                template env maxValue)
               (TEXT_X p) (TEXT_Y p)
        else fillText
               (template env (Math_round value) +:+ name p +:+ " (" +:+
                template env (Math_round min) +:+ "-" +:+
                template env (Math_round max) +:+ ")")
               (TEXT_X p) (TEXT_Y p)) in
  match
    drawImage (canvas p) (canvas_width p) (canvas_height p)
      (GRAPH_X p + PR p)%num (GRAPH_Y p)
      (GRAPH_WIDTH p - PR p)%num (GRAPH_HEIGHT p)
      (GRAPH_X p) (GRAPH_Y p)
      (GRAPH_WIDTH p - PR p)%num (GRAPH_HEIGHT p) context
  with
  | Thrown error context => Thrown error (leave context)
  | Returned context =>
      Returned
        (leave
           (context
            |> fillRect (GRAPH_X p + GRAPH_WIDTH p - PR p)%num (GRAPH_Y p)
                 (PR p) (GRAPH_HEIGHT p)
            |> set_fillStyle (bg p)
            |> set_globalAlpha nine_tenths
            |> fillRect (GRAPH_X p + GRAPH_WIDTH p - PR p)%num (GRAPH_Y p)
                 (PR p)
                 (Math_round
                    ((of_Z 1 - value / maxValue) * GRAPH_HEIGHT p)%num)))
  end.

(** The panel's canvas can be drawn as an image: neither dimension is
    zero. *)
Definition usable (p : t) : bool :=
  negb (canvas_width p =? 0)%Z && negb (canvas_height p =? 0)%Z.

(** The condition on which the [drawImage] of [update] throws: the
    rectangles it is given are finite and the canvas has no pixels. *)
Definition throws (p : t) : bool :=
  forallb isFinite
    [ (GRAPH_X p + PR p)%num; GRAPH_Y p;
      (GRAPH_WIDTH p - PR p)%num; GRAPH_HEIGHT p;
      GRAPH_X p; GRAPH_Y p; (GRAPH_WIDTH p - PR p)%num; GRAPH_HEIGHT p ] &&
  ((canvas_width p =? 0)%Z || (canvas_height p =? 0)%Z).

(** A sequence of [update(value, maxValue)] calls, first call first, each
    made on the panel as the call before left it. *)
Definition updates (env : Env) (calls : list (num * num)) (p : t) : t :=
  foldl (fun p c => after (update env (fst c) (snd c) p)) p calls.

(** The running statistics cover the values [seen] so far. *)
Definition tracks (p : t) (seen : list num) : Prop :=
  isNaN (min p) = false /\ isNaN (max p) = false /\
  le (of_Z 0) (max p) = true /\
  Forall (fun v => le (min p) v = true /\ ge (max p) v = true) seen.

(** The drawing calls that returned during a step. *)
Definition drawn (before after : t) : list Call :=
  drop (length (calls (context before))) (calls (context after)).

End Panel.

(* ================================================================= *)
(** ** Stats *)

Module Overlay.

(** The variables of one [Stats] call that [addPanel] and [showPanel]
    close over, and the document they act on. *)
Module Scope.
Record t := {
  currentPanelIndex : Z;      (* [let currentPanelIndex] *)
  container : node;
  document : Document
}.
End Scope.

(** The object [Stats] returns.  Its [addPanel] and [showPanel]
    properties are the two functions below. *)
Record StatsObject := {
  REVISION : Z;
  currentPanelIndex : Z;
  dom : node;
  fpsPanel : Panel.t;
  msPanel : Panel.t;
  memPanel : option Panel.t     (* [None]: undefined *)
}.

Definition with_document (d : Document) (s : Scope.t) : Scope.t :=
  {| Scope.currentPanelIndex := Scope.currentPanelIndex s;
     Scope.container := Scope.container s;
     Scope.document := d |}.

Definition addPanel (panel : Panel.t) (s : Scope.t) : Panel.t * Scope.t :=
  (panel,
   with_document
     (appendChild (Scope.container s) (Panel.dom panel) (Scope.document s)) s).

(** The [for] loop of [showPanel], from counter [i] on, over the children
    that remain. *)
Fixpoint showPanel_loop (id : Z) (i : Z) (rest : list node) (d : Document)
    : Document :=
  match rest with
  | [] => d
  | child :: rest =>
      showPanel_loop id (i + 1) rest
        (set_display child (if (i =? id)%Z then "block" else "none") d)
  end.

Definition showPanel (id : Z) (s : Scope.t) : Scope.t :=
  let d := Scope.document s in
  {| Scope.currentPanelIndex := id;
     Scope.container := Scope.container s;
     Scope.document :=
       showPanel_loop id 0 (children_of d (Scope.container s)) d |}.

Definition Stats (env : Env) (width height : num) (showMaximum : bool)
    (d : Document) : StatsObject * Scope.t :=
  let currentPanelIndex := 0%Z in
  let '(container, d) := createElement "div" d in
  let d := set_cssText container "opacity:0.71;z-index:10000" d in
  let s := {| Scope.currentPanelIndex := currentPanelIndex;
              Scope.container := container;
              Scope.document := d |} in
  let '(panel, d) :=
    Panel.StatsPanel env "FPS" "#0ff" "#002" width height showMaximum
      (Scope.document s) in
  let '(fpsPanel, s) := addPanel panel (with_document d s) in
  let '(panel, d) :=
    Panel.StatsPanel env "MS" "#0f0" "#020" width height showMaximum
      (Scope.document s) in
  let '(msPanel, s) := addPanel panel (with_document d s) in
  let '(memPanel, s) :=
    if performance_memory env
    then
      let '(panel, d) :=
        Panel.StatsPanel env "MB" "#f08" "#201" width height showMaximum
          (Scope.document s) in
      let '(memPanel, s) := addPanel panel (with_document d s) in
      (Some memPanel, s)
    else (None, s) in
  let s := showPanel 0 s in
  ({| REVISION := 17;
      currentPanelIndex := Scope.currentPanelIndex s;
      dom := Scope.container s;
      fpsPanel := fpsPanel;
      msPanel := msPanel;
      memPanel := memPanel |},
   s).

(** The panels registered in the container, in display order. *)
Definition panels (s : Scope.t) : list node :=
  children_of (Scope.document s) (Scope.container s).

(** The inline [display] of each registered panel, in that order. *)
Definition displays (s : Scope.t) : list string :=
  display_of (Scope.document s) <$> panels s.

(** [container.children[j]] for an integer [j]; [None] out of range. *)
Definition panel_at (s : Scope.t) (j : Z) : option node :=
  if (0 <=? j)%Z then panels s !! Z.to_nat j else None.

Definition visible_panels (s : Scope.t) : list node :=
  filter (fun c => visible (Scope.document s) c = true) (panels s).

(** What the DOM guarantees of a container: it is an element of the
    document, its children are elements too, and no element is its child
    twice. *)
Definition well_formed (s : Scope.t) : Prop :=
  is_Some (elements (Scope.document s) !! Scope.container s) /\
  NoDup (panels s) /\
  Forall (fun c => is_Some (elements (Scope.document s) !! c)) (panels s).

End Overlay.

(* ================================================================= *)
(** ** Sample inputs *)

Module Sample.

(** A page at device pixel ratio 1 without the memory API. *)
Definition env : Env :=
  {| devicePixelRatio := Some (of_Z 1);
     performance_memory := false;
     shortest_decimal := fun _ => "" |}.

(** The same page in a browser that has [performance.memory]. *)
Definition env_memory : Env :=
  {| devicePixelRatio := Some (of_Z 1);
     performance_memory := true;
     shortest_decimal := fun _ => "" |}.

(** A page zoomed out to a quarter. *)
Definition env_quarter : Env :=
  {| devicePixelRatio := Some (of_Z 1 / of_Z 4)%num;
     performance_memory := false;
     shortest_decimal := fun _ => "" |}.

(** [new StatsPanel('FPS', '#0ff', '#002')]. *)
Definition fps : Panel.t :=
  (Panel.StatsPanel env "FPS" "#0ff" "#002" (of_Z 80) (of_Z 48) false
     empty_document).1.

(** The same panel on the page zoomed out to a quarter. *)
Definition fps_quarter : Panel.t :=
  (Panel.StatsPanel env_quarter "FPS" "#0ff" "#002" (of_Z 80) (of_Z 48) false
     empty_document).1.

(** [new Stats()]. *)
Definition stats : Overlay.StatsObject * Overlay.Scope.t :=
  Overlay.Stats env (of_Z 80) (of_Z 48) false empty_document.

Definition stats_memory : Overlay.StatsObject * Overlay.Scope.t :=
  Overlay.Stats env_memory (of_Z 80) (of_Z 48) false empty_document.

End Sample.

(* ================================================================= *)
(** ** Further predicates *)

(** The running statistics are values that were passed: the minimum is
    [Infinity] before the first value and one of the values [seen] after
    it; the maximum is the initial 0 or one of the values [seen]. *)
Definition attains (p : Panel.t) (seen : list num) : Prop :=
  ((seen = [] /\ Panel.min p = Infinity) \/ Panel.min p ∈ seen) /\
  Panel.max p ∈ of_Z 0 :: seen.

(** The overlays a host can reach from [Stats(width, height, showMaximum)]
    called in document [d]: by [showPanel], by [addPanel] of a panel whose
    canvas is an element of the document other than the container, and by
    making further panels with [StatsPanel]. *)
Inductive reachable (env : Env) (width height : num) (showMaximum : bool)
    (d : Document) : Overlay.Scope.t -> Prop :=
| reach_Stats :
    reachable env width height showMaximum d
      (Overlay.Stats env width height showMaximum d).2
| reach_showPanel (id : Z) (s : Overlay.Scope.t) :
    reachable env width height showMaximum d s ->
    reachable env width height showMaximum d (Overlay.showPanel id s)
| reach_addPanel (panel : Panel.t) (s : Overlay.Scope.t) :
    reachable env width height showMaximum d s ->
    is_Some (elements (Overlay.Scope.document s) !! Panel.dom panel) ->
    Panel.dom panel ≠ Overlay.Scope.container s ->
    reachable env width height showMaximum d (Overlay.addPanel panel s).2
| reach_StatsPanel (env' : Env) (name fg bg : string) (w h : num)
    (sm : bool) (s : Overlay.Scope.t) :
    reachable env width height showMaximum d s ->
    reachable env width height showMaximum d
      (Overlay.with_document
         (Panel.StatsPanel env' name fg bg w h sm
            (Overlay.Scope.document s)).2 s).

(* ================================================================= *)
(** ** The order of JavaScript numbers *)

Section NumberOrder.

Implicit Types x y z : num.

Lemma num_compare_refl x : isNaN x = false -> SFcompare x x = Some Eq.
Proof.
  destruct x as [s|s| |s m e]; simpl; try discriminate; intros _.
  - reflexivity.
  - destruct s; reflexivity.
  - rewrite Z.compare_refl, Pos.compare_cont_refl. destruct s; reflexivity.
Qed.

Lemma num_compare_antisym x y :
  SFcompare y x = CompOpp <$> SFcompare x y.
Proof.
  destruct x as [s|s| |s m e], y as [s'|s'| |s' m' e']; simpl;
    try reflexivity; try (destruct s; reflexivity);
    try (destruct s'; reflexivity);
    try (destruct s, s'; reflexivity).
  rewrite !Pos.compare_cont_spec; simpl.
  rewrite (Z.compare_antisym e e'), (Pos.compare_antisym m m').
  destruct s, s', (e ?= e')%Z; simpl; try reflexivity;
    destruct (m ?= m')%positive; reflexivity.
Qed.

Lemma num_le_refl x : isNaN x = false -> le x x = true.
Proof. intros H. unfold le, SFleb. now rewrite num_compare_refl. Qed.

Lemma num_lt_le x y : lt x y = true -> le x y = true.
Proof.
  unfold lt, le, SFltb, SFleb.
  destruct (SFcompare x y) as [[]|]; congruence.
Qed.

(** The order is total on the numbers that are not [NaN]. *)
Lemma num_not_lt_le x y :
  isNaN x = false -> isNaN y = false -> lt x y = false -> le y x = true.
Proof.
  intros Hx Hy. unfold lt, le, SFltb, SFleb.
  rewrite (num_compare_antisym x y).
  destruct (SFcompare x y) as [[]|] eqn:E; simpl; try congruence.
  destruct x, y; discriminate.
Qed.

Lemma num_le_trans x y z : le x y = true -> le y z = true -> le x z = true.
Proof.
  unfold le, SFleb.
  destruct x as [s1|s1| |s1 m1 e1], y as [s2|s2| |s2 m2 e2],
           z as [s3|s3| |s3 m3 e3]; simpl; try discriminate;
    try (destruct s1; simpl; congruence);
    try (destruct s3; simpl; congruence);
    try (destruct s1, s2; simpl; congruence);
    try (destruct s2, s3; simpl; congruence);
    try (destruct s1, s2, s3; simpl; congruence).
  rewrite !Pos.compare_cont_spec; simpl.
  destruct s1, s2, s3; simpl; try congruence;
    destruct (Z.compare_spec e1 e2), (Z.compare_spec e2 e3),
             (Z.compare_spec e1 e3); try lia; try congruence;
    destruct (Pos.compare_spec m1 m2), (Pos.compare_spec m2 m3),
             (Pos.compare_spec m1 m3); simpl; try lia; congruence.
Qed.

Lemma lt_Infinity x :
  isNaN x = false -> lt x Infinity = false -> x = Infinity.
Proof. destruct x as [s|[]| |[] m e]; simpl; try discriminate; reflexivity. Qed.

Lemma neg_Infinity_lt x :
  isNaN x = false -> lt neg_Infinity x = false -> x = neg_Infinity.
Proof. destruct x as [s|[]| |[] m e]; simpl; try discriminate; reflexivity. Qed.

End NumberOrder.

(* ================================================================= *)
(** ** The running minimum and maximum *)

Section RunningRange.

Implicit Types a v : num.

Lemma Math_min_pair a v :
  isNaN a = false -> isNaN v = false ->
  isNaN (Math_min [a; v]) = false /\
  le (Math_min [a; v]) v = true /\ le (Math_min [a; v]) a = true.
Proof.
  intros Ha Hv. unfold Math_min. simpl. rewrite Ha, Hv.
  rewrite andb_false_r.
  assert (E : (if lt a Infinity then a else Infinity) = a).
  { destruct (lt a Infinity) eqn:L; [reflexivity|].
    symmetry. now apply lt_Infinity. }
  rewrite E. clear E.
  destruct (is_neg_zero v && is_pos_zero a) eqn:Z.
  - apply andb_true_iff in Z as [Zv Za].
    destruct v as [[]| | |]; try discriminate.
    destruct a as [[]| | |]; try discriminate.
    repeat split; reflexivity.
  - destruct (lt v a) eqn:L.
    + repeat split; [assumption|now apply num_le_refl|now apply num_lt_le].
    + repeat split; [assumption|now apply num_not_lt_le|now apply num_le_refl].
Qed.

Lemma Math_max_pair a v :
  isNaN a = false -> isNaN v = false ->
  isNaN (Math_max [a; v]) = false /\
  ge (Math_max [a; v]) v = true /\ ge (Math_max [a; v]) a = true.
Proof.
  intros Ha Hv. unfold Math_max, ge. simpl. rewrite Ha, Hv.
  rewrite andb_false_r.
  assert (E : (if lt neg_Infinity a then a else neg_Infinity) = a).
  { destruct (lt neg_Infinity a) eqn:L; [reflexivity|].
    symmetry. now apply neg_Infinity_lt. }
  rewrite E. clear E.
  destruct (is_pos_zero v && is_neg_zero a) eqn:Z.
  - apply andb_true_iff in Z as [Zv Za].
    destruct v as [[]| | |]; try discriminate.
    destruct a as [[]| | |]; try discriminate.
    repeat split; reflexivity.
  - destruct (lt a v) eqn:L.
    + repeat split; [assumption|now apply num_le_refl|now apply num_lt_le].
    + repeat split; [assumption|now apply num_not_lt_le|now apply num_le_refl].
Qed.

Lemma update_min env v m p :
  Panel.min (after (Panel.update env v m p)) = Math_min [Panel.min p; v].
Proof. unfold Panel.update, drawImage. destruct (_ && _); reflexivity. Qed.

Lemma update_max env v m p :
  Panel.max (after (Panel.update env v m p)) = Math_max [Panel.max p; v].
Proof. unfold Panel.update, drawImage. destruct (_ && _); reflexivity. Qed.

(** [update] assigns [min] and [max] and draws; every other variable of
    the panel is as before, whether the call returns or throws. *)
Lemma update_constants env v m p :
  let q := after (Panel.update env v m p) in
  (Panel.name q, Panel.fg q, Panel.bg q, Panel.showMaximum q) =
  (Panel.name p, Panel.fg p, Panel.bg p, Panel.showMaximum p) /\
  (Panel.width q, Panel.height q, Panel.PR q, Panel.WIDTH q, Panel.HEIGHT q) =
  (Panel.width p, Panel.height p, Panel.PR p, Panel.WIDTH p, Panel.HEIGHT p) /\
  (Panel.TEXT_X q, Panel.TEXT_Y q, Panel.GRAPH_X q, Panel.GRAPH_Y q,
   Panel.GRAPH_WIDTH q, Panel.GRAPH_HEIGHT q) =
  (Panel.TEXT_X p, Panel.TEXT_Y p, Panel.GRAPH_X p, Panel.GRAPH_Y p,
   Panel.GRAPH_WIDTH p, Panel.GRAPH_HEIGHT p) /\
  (Panel.canvas q, Panel.canvas_width q, Panel.canvas_height q) =
  (Panel.canvas p, Panel.canvas_width p, Panel.canvas_height p) /\
  Panel.evaluateStatsColor q = Panel.evaluateStatsColor p.
Proof.
  unfold Panel.update, drawImage. destruct (_ && _); repeat split.
Qed.

Lemma update_usable env v m p :
  Panel.usable (after (Panel.update env v m p)) = Panel.usable p.
Proof.
  destruct (update_constants env v m p) as (_ & _ & _ & C & _).
  injection C as _ C1 C2. unfold Panel.usable. now rewrite C1, C2.
Qed.

Lemma usable_returns p : Panel.usable p = true -> Panel.throws p = false.
Proof.
  unfold Panel.usable, Panel.throws. intros Hu.
  rewrite <- negb_orb, negb_true_iff in Hu. rewrite Hu. apply andb_false_r.
Qed.

Lemma updates_snoc env calls c p :
  Panel.updates env (calls ++ [c]) p =
  after (Panel.update env c.1 c.2 (Panel.updates env calls p)).
Proof. unfold Panel.updates. now rewrite foldl_app. Qed.

Lemma StatsPanel_tracks env name fg bg width height showMaximum d :
  Panel.tracks
    (Panel.StatsPanel env name fg bg width height showMaximum d).1 [].
Proof. repeat split; constructor. Qed.

(** One [update] with a value that is a number keeps the invariant and
    brings the value under it. *)
Lemma update_tracks env v m p seen :
  isNaN v = false ->
  Panel.tracks p seen ->
  Panel.tracks (after (Panel.update env v m p)) (seen ++ [v]).
Proof.
  intros Hv (Hmin & Hmax & H0 & Hseen).
  destruct (Math_min_pair (Panel.min p) v Hmin Hv) as (N1 & L1 & L2).
  destruct (Math_max_pair (Panel.max p) v Hmax Hv) as (N2 & G1 & G2).
  unfold Panel.tracks. rewrite update_min, update_max.
  repeat split; try assumption.
  - eapply num_le_trans; [exact H0|exact G2].
  - apply Forall_app. split.
    + eapply Forall_impl; [exact Hseen|].
      intros u [Lu Gu]. split.
      * eapply num_le_trans; [exact L2|exact Lu].
      * unfold ge in *. eapply num_le_trans; [exact Gu|exact G2].
    + constructor; [split; assumption|constructor].
Qed.

Lemma updates_tracks env calls p seen :
  Forall (fun c => isNaN c.1 = false) calls ->
  Panel.tracks p seen ->
  Panel.tracks (Panel.updates env calls p) (seen ++ calls.*1).
Proof.
  induction calls as [|c calls IH] using rev_ind; intros Hc Hp.
  - simpl. now rewrite app_nil_r.
  - apply Forall_app in Hc as [Hc Hlast].
    apply Forall_cons in Hlast as [Hlast _].
    rewrite updates_snoc, fmap_app, app_assoc. simpl.
    apply update_tracks; [assumption|]. now apply IH.
Qed.

End RunningRange.

(** C2, as amended.  On a panel made by [StatsPanel], for every finite
    sequence of [update(v, m)] calls whose values are numbers (not [NaN]):
    after the last call of the sequence, hence after each call, the tracked
    minimum is [<=] the value just passed and the tracked maximum is [>=] it;
    the minimum did not increase and the maximum did not decrease in that
    call; the maximum is [>= 0]; and the minimum and maximum bound every
    value passed so far. *)
Theorem tracked_range_widens
    env name fg bg width height showMaximum d
    (calls : list (num * num)) (value maxValue : num) :
  Forall (fun c => isNaN c.1 = false) calls ->
  isNaN value = false ->
  let p := Panel.updates env calls
             (Panel.StatsPanel env name fg bg width height showMaximum d).1 in
  let p' := after (Panel.update env value maxValue p) in
  le (Panel.min p') value = true /\ ge (Panel.max p') value = true /\
  le (Panel.min p') (Panel.min p) = true /\
  ge (Panel.max p') (Panel.max p) = true /\
  ge (Panel.max p') (of_Z 0) = true /\
  Forall (fun c => le (Panel.min p') c.1 = true /\
                   ge (Panel.max p') c.1 = true) calls.
Proof.
  intros Hcalls Hv p p'.
  pose proof (updates_tracks env calls _ [] Hcalls
                (StatsPanel_tracks env name fg bg width height showMaximum d))
    as Hp.
  fold p in Hp. simpl in Hp.
  pose proof (update_tracks env value maxValue p _ Hv Hp) as Hp'.
  fold p' in Hp'.
  destruct Hp as (Hmin & Hmax & _ & _).
  destruct (Math_min_pair (Panel.min p) value Hmin Hv) as (_ & L1 & L2).
  destruct (Math_max_pair (Panel.max p) value Hmax Hv) as (_ & G1 & G2).
  destruct Hp' as (_ & _ & H0 & Hall).
  apply Forall_app in Hall as [Hall _].
  rewrite <- (update_min env value maxValue p) in L1, L2.
  rewrite <- (update_max env value maxValue p) in G1, G2.
  fold p' in L1, L2, G1, G2.
  repeat split; try assumption.
  apply Forall_fmap in Hall. exact Hall.
Qed.

(** The amended C2 on [update(10, 60)] followed by [update(50, 60)]. *)
Lemma tracked_range_widens_witness :
  let p := Panel.updates Sample.env [(of_Z 10, of_Z 60)] Sample.fps in
  let p' := after (Panel.update Sample.env (of_Z 50) (of_Z 60) p) in
  le (Panel.min p') (of_Z 50) = true /\ ge (Panel.max p') (of_Z 50) = true /\
  le (Panel.min p') (Panel.min p) = true /\
  ge (Panel.max p') (Panel.max p) = true /\
  ge (Panel.max p') (of_Z 0) = true /\
  Forall (fun c => le (Panel.min p') c.1 = true /\
                   ge (Panel.max p') c.1 = true) [(of_Z 10, of_Z 60)].
Proof.
  apply (tracked_range_widens Sample.env "FPS" "#0ff" "#002" (of_Z 80)
           (of_Z 48) false empty_document [(of_Z 10, of_Z 60)]
           (of_Z 50) (of_Z 60)).
  - repeat constructor.
  - reflexivity.
Defined.

(** C2 as stated fails when a value is [NaN]: [update(NaN, 60)] on a new
    panel leaves [NaN] in both statistics, and no comparison with [NaN]
    holds. *)
Lemma tracked_range_fails_on_NaN :
  let p' := after (Panel.update Sample.env NaN (of_Z 60) Sample.fps) in
  Panel.min p' = NaN /\ Panel.max p' = NaN /\
  le (Panel.min p') NaN = false /\ ge (Panel.max p') NaN = false /\
  le (Panel.min p') (Panel.min Sample.fps) = false /\
  ge (Panel.max p') (of_Z 0) = false.
Proof. vm_compute. repeat split. Qed.

(* ================================================================= *)
(** ** Rounding a double to an integer *)

Section Rounding.

Lemma digits2_pos_iter_xO p k :
  digits2_pos (Pos.iter xO p k) = (digits2_pos p + k)%positive.
Proof.
  induction k as [|k IH] using Pos.peano_ind.
  - simpl. lia.
  - rewrite Pos.iter_succ. simpl. rewrite IH. lia.
Qed.

Lemma digits2_pos_bounds m :
  (2 ^ (Zpos (digits2_pos m) - 1) <= Zpos m < 2 ^ Zpos (digits2_pos m))%Z.
Proof.
  induction m as [m IH|m IH|]; simpl digits2_pos.
  - rewrite Pos2Z.inj_succ.
    replace (Z.succ (Zpos (digits2_pos m)) - 1)%Z
      with (Z.succ (Zpos (digits2_pos m) - 1)) by lia.
    rewrite !Z.pow_succ_r by lia. lia.
  - rewrite Pos2Z.inj_succ.
    replace (Z.succ (Zpos (digits2_pos m)) - 1)%Z
      with (Z.succ (Zpos (digits2_pos m) - 1)) by lia.
    rewrite !Z.pow_succ_r by lia. lia.
  - simpl. lia.
Qed.

(** Rounding a mantissa that is already canonical changes nothing. *)
Lemma binary_round_aux_canonical s m e :
  canonical_mantissa 53 1024 m e = true ->
  (e <= 971)%Z ->
  binary_round_aux 53 1024 s (Zpos m) e loc_Exact = S754_finite s m e.
Proof.
  intros Hc He. apply Z.eqb_eq in Hc.
  unfold binary_round_aux, shr_fexp. simpl Zdigits2.
  rewrite Hc, Z.sub_diag. simpl.
  rewrite Hc, Z.sub_diag. simpl.
  change (1024 - 53)%Z with 971%Z.
  apply Z.leb_le in He. now rewrite He.
Qed.

(** A positive integer of at most 53 bits is a double, and is at least 1
    as a double. *)
Lemma of_Z_pos_ge_1 p :
  (Zpos (digits2_pos p) <= 53)%Z -> le (of_Z 1) (of_Z (Zpos p)) = true.
Proof.
  intros Hd. unfold of_Z at 2. unfold binary_normalize, binary_round.
  unfold shl_align, fexp, SpecFloat.emin, prec, emax.
  rewrite Z.max_l by lia.
  destruct (Zpos (digits2_pos p) + 0 - 53 - 0)%Z as [|k|k] eqn:E; try lia.
  - rewrite (binary_round_aux_canonical false p 0).
    + reflexivity.
    + unfold canonical_mantissa, fexp, SpecFloat.emin.
      apply Z.eqb_eq. lia.
    + lia.
  - rewrite (binary_round_aux_canonical false).
    + assert (Hk : (Zpos (digits2_pos p) - 53 = Zneg k)%Z) by lia.
      change (of_Z 1) with (S754_finite false 4503599627370496 (-52)).
      unfold le, SFleb, SFcompare.
      destruct (Z.compare_spec (-52) (Zpos (digits2_pos p) + 0 - 53))
        as [Heq|Hlt|Hgt]; [|reflexivity|lia].
      assert (digits2_pos p = 1%positive) as Hp by lia.
      assert (k = 52%positive) by lia. subst k.
      destruct p; simpl in Hp; try lia. reflexivity.
    + unfold canonical_mantissa, fexp, SpecFloat.emin.
      rewrite digits2_pos_iter_xO. apply Z.eqb_eq. lia.
    + lia.
Qed.

(** The mantissa of a genuine double has at most 53 bits, and exactly 53
    when the exponent is above the subnormal range. *)
Lemma valid_mantissa s m e :
  valid (S754_finite s m e) = true ->
  (Zpos m < 2 ^ 53)%Z /\ ((-1074 < e)%Z -> (2 ^ 52 <= Zpos m)%Z).
Proof.
  unfold valid, valid_binary, bounded, canonical_mantissa, fexp,
    SpecFloat.emin, prec, emax.
  intros H. apply andb_true_iff in H as [H _]. apply Z.eqb_eq in H.
  pose proof (digits2_pos_bounds m) as [Hlo Hhi].
  split.
  - eapply Z.lt_le_trans; [exact Hhi|].
    apply Z.pow_le_mono_r; lia.
  - intros He.
    assert (Zpos (digits2_pos m) = 53%Z) as Hd by lia.
    rewrite Hd in Hlo. exact Hlo.
Qed.

(** The quotient [floor ((2 m + K) / (2 K))] that [Math.round] computes
    for [m / K]. *)
Lemma half_up_quotient (m K : Z) :
  (0 < K)%Z -> (0 <= m)%Z ->
  ((2 * m < K -> (2 * m + K) / (2 * K) = 0) /\
   (K <= 2 * m -> 1 <= (2 * m + K) / (2 * K) <= m) /\
   (K = 9007199254740992 -> K <= 2 * m < 2 * K ->
    (2 * m + K) / (2 * K) = 1))%Z.
Proof.
  intros HK Hm. split; [|split].
  - intros H. apply Z.div_small. lia.
  - intros H. split.
    + apply Z.div_le_lower_bound; lia.
    + apply Z.lt_succ_r, Z.div_lt_upper_bound; nia.
  - intros -> H.
    apply Z.le_antisymm.
    + apply Z.lt_succ_r, Z.div_lt_upper_bound; lia.
    + apply Z.div_le_lower_bound; lia.
Qed.

(** [Math.round] of a positive double is at least 1 exactly when the
    double is at least one half. *)
Lemma Math_round_ge_1 r :
  valid r = true -> lt (of_Z 0) r = true ->
  ge (Math_round r) (of_Z 1) = le (of_Z 1 / of_Z 2)%num r.
Proof.
  destruct r as [s|[]| |[] m e]; try discriminate; try reflexivity.
  intros Hv _. apply valid_mantissa in Hv as [Hhi Hlo].
  change (of_Z 1 / of_Z 2)%num
    with (S754_finite false 4503599627370496 (-53)).
 change (2 ^ 53)%Z with 9007199254740992%Z in Hhi.
 change (2 ^ 52)%Z with 4503599627370496%Z in Hlo.
  unfold Math_round.
  destruct (Z.leb_spec 0 e) as [He|He].
  - (* already an integer *)
    change (of_Z 1) with (S754_finite false 4503599627370496 (-52)).
    unfold ge, le, SFleb, SFcompare.
    destruct (Z.compare_spec (-52) e); try lia.
    destruct (Z.compare_spec (-53) e); try lia; reflexivity.
  - unfold nearest_integer.
    destruct (Z.leb_spec 0 e) as [He'|_]; [lia|].
    cbn [cond_Zopp].
    assert (HK0 : (0 < 2 ^ (- e))%Z) by (apply Z.pow_pos_nonneg; lia).
    assert (HK53 : (-53 <= e -> 2 ^ (- e) <= 9007199254740992)%Z).
    { intros H. change 9007199254740992%Z with (2 ^ 53)%Z.
      apply Z.pow_le_mono_r; lia. }
    assert (HK54 : (e < -53 -> 18014398509481984 <= 2 ^ (- e))%Z).
    { intros H. change 18014398509481984%Z with (2 ^ 54)%Z.
      apply Z.pow_le_mono_r; lia. }
    assert (HKeq : (e = -53 -> 2 ^ (- e) = 9007199254740992)%Z).
    { intros ->. reflexivity. }
    remember (2 ^ (- e))%Z as K eqn:HK. clear HK.
    destruct (half_up_quotient (Zpos m) K HK0 ltac:(lia)) as (Hzero & Hone & Hmid).
    remember ((2 * Zpos m + K) / (2 * K))%Z as n eqn:Hn. clear Hn.
    unfold le, SFleb, SFcompare.
    destruct (Z.compare_spec (-53) e) as [Heq|Hlt|Hgt].
    + (* exponent -53: a normal double in [1/2, 1) *)
      rewrite Pos.compare_cont_spec.
      assert (Hm : (4503599627370496 <= Zpos m)%Z) by (apply Hlo; lia).
      assert (n = 1%Z) as -> by (apply Hmid; lia).
      change (4503599627370496 ?= m)%positive
        with (4503599627370496 ?= Zpos m)%Z.
      destruct (Z.compare_spec 4503599627370496 (Zpos m)) as [E|L|G].
      * reflexivity.
      * reflexivity.
      * lia.
    + (* above one half *)
      assert (Hm : (4503599627370496 <= Zpos m)%Z) by (apply Hlo; lia).
      specialize (HK53 ltac:(lia)).
      destruct n as [|p|p]; [lia| |lia].
      unfold ge.
      apply of_Z_pos_ge_1.
      pose proof (digits2_pos_bounds p) as [Hplo _].
      destruct (Z.le_gt_cases (Zpos (digits2_pos p)) 53) as [|Hbig];
        [assumption|exfalso].
      assert ((2 ^ 53 <= 2 ^ (Zpos (digits2_pos p) - 1))%Z) as Hpow
        by (apply Z.pow_le_mono_r; lia).
      change (2 ^ 53)%Z with 9007199254740992%Z in Hpow. lia.
    + (* below one half: rounds to zero *)
      specialize (HK54 ltac:(lia)).
      rewrite Hzero by lia. reflexivity.
Qed.

End Rounding.

(** C7, as amended.  The scale factor of a panel is the device pixel ratio
    rounded to the nearest integer, for every positive ratio read at
    construction, and every derived length is computed with it; it is at
    least 1 exactly when the ratio is at least one half. *)
Theorem scale_factor_is_rounded_ratio
    env name fg bg width height showMaximum d (r : num) :
  devicePixelRatio env = Some r ->
  valid r = true ->
  lt (of_Z 0) r = true ->
  let p := (Panel.StatsPanel env name fg bg width height showMaximum d).1 in
  Panel.PR p = Math_round r /\
  ge (Panel.PR p) (of_Z 1) = le (of_Z 1 / of_Z 2)%num r /\
  Panel.WIDTH p = (width * Panel.PR p)%num /\
  Panel.HEIGHT p = (height * Panel.PR p)%num /\
  Panel.TEXT_X p = (of_Z 3 * Panel.PR p)%num /\
  Panel.TEXT_Y p = (of_Z 2 * (height / of_Z 48) * Panel.PR p)%num /\
  Panel.GRAPH_X p = (of_Z 3 * Panel.PR p)%num /\
  Panel.GRAPH_Y p = (of_Z 15 * Panel.PR p)%num /\
  Panel.GRAPH_WIDTH p = ((width - of_Z 6) * Panel.PR p)%num /\
  Panel.GRAPH_HEIGHT p =
    ((height - of_Z 18) * (height / of_Z 48) * Panel.PR p)%num.
Proof.
  intros Hr Hv Hpos p.
  assert (HPR : Panel.PR p = Math_round r).
  { unfold p. simpl. unfold Panel.pixel_ratio. rewrite Hr.
    destruct r as [s|s| |s m e]; try discriminate; reflexivity. }
  split; [exact HPR|]. split.
  - rewrite HPR. now apply Math_round_ge_1.
  - repeat split.
Qed.

(** The amended C7 at device pixel ratio 1. *)
Lemma scale_factor_is_rounded_ratio_witness :
  let p := Sample.fps in
  Panel.PR p = Math_round (of_Z 1) /\
  ge (Panel.PR p) (of_Z 1) = le (of_Z 1 / of_Z 2)%num (of_Z 1) /\
  Panel.WIDTH p = (of_Z 80 * Panel.PR p)%num /\
  Panel.HEIGHT p = (of_Z 48 * Panel.PR p)%num /\
  Panel.TEXT_X p = (of_Z 3 * Panel.PR p)%num /\
  Panel.TEXT_Y p = (of_Z 2 * (of_Z 48 / of_Z 48) * Panel.PR p)%num /\
  Panel.GRAPH_X p = (of_Z 3 * Panel.PR p)%num /\
  Panel.GRAPH_Y p = (of_Z 15 * Panel.PR p)%num /\
  Panel.GRAPH_WIDTH p = ((of_Z 80 - of_Z 6) * Panel.PR p)%num /\
  Panel.GRAPH_HEIGHT p =
    ((of_Z 48 - of_Z 18) * (of_Z 48 / of_Z 48) * Panel.PR p)%num.
Proof.
  apply (scale_factor_is_rounded_ratio Sample.env "FPS" "#0ff" "#002"
           (of_Z 80) (of_Z 48) false empty_document (of_Z 1));
    reflexivity.
Defined.

(** C7 as stated fails below one half: at device pixel ratio 0.25, which is
    positive, the scale factor is 0. *)
Lemma scale_factor_below_one :
  let p := (Panel.StatsPanel Sample.env_quarter "FPS" "#0ff" "#002"
              (of_Z 80) (of_Z 48) false empty_document).1 in
  lt (of_Z 0) (of_Z 1 / of_Z 4)%num = true /\
  Panel.PR p = of_Z 0 /\
  ge (Panel.PR p) (of_Z 1) = false.
Proof. vm_compute. repeat split. Qed.

(* ================================================================= *)
(** ** What one [update] draws *)

Section Drawing.

Variable env : Env.

Lemma string_append_assoc (a b c : string) : (a +:+ b) +:+ c = a +:+ (b +:+ c).
Proof.
  induction a as [|x a IH]; [reflexivity|].
  change (String x ((a +:+ b) +:+ c) = String x (a +:+ (b +:+ c))).
  now rewrite IH.
Qed.

(** [update] throws exactly when its [drawImage] does: the canvas is the
    image of its own [drawImage]. *)
Lemma update_thrown (value maxValue : num) (p : Panel.t) :
  thrown (Panel.update env value maxValue p) =
  if Panel.throws p then Some "InvalidStateError" else None.
Proof.
  unfold Panel.update, Panel.throws, drawImage.
  destruct (_ && _); reflexivity.
Qed.

(** [update] sets neither the font nor the baseline of the text. *)
Lemma update_text_style (value maxValue : num) (p : Panel.t) :
  let q := after (Panel.update env value maxValue p) in
  font (Panel.context q) = font (Panel.context p) /\
  textBaseline (Panel.context q) = textBaseline (Panel.context p).
Proof.
  unfold Panel.update, drawImage.
  destruct (_ && _); destruct (Panel.showMaximum p); split; reflexivity.
Qed.

(** The drawing calls of [update], in order: the header strip is erased
    and the header text is written; then, unless [drawImage] throws, the
    graph is copied onto itself, the new column is filled and its top is
    covered. *)
Lemma update_drawn (value maxValue : num) (p : Panel.t) :
  let min := Math_min [Panel.min p; value] in
  let max := Math_max [Panel.max p; value] in
  let text :=
    template env (Math_round value) +:+ Panel.name p +:+ " (" +:+
    template env (Math_round min) +:+ "-" +:+
    template env (Math_round max) +:+ ")" in
  Panel.drawn p (after (Panel.update env value maxValue p)) =
  FillRect (Panel.bg p) (of_Z 1)
    (of_Z 0) (of_Z 0) (Panel.WIDTH p) (Panel.GRAPH_Y p) ::
  FillText (Panel.evaluateStatsColor p value maxValue) (of_Z 1)
    (font (Panel.context p)) (textBaseline (Panel.context p))
    (if Panel.showMaximum p
     then text +:+ "/" +:+ template env maxValue else text)
    (Panel.TEXT_X p) (Panel.TEXT_Y p) ::
  (if Panel.throws p
   then []
   else
     [ DrawImage (of_Z 1) (Panel.canvas p)
         (Panel.GRAPH_X p + Panel.PR p)%num (Panel.GRAPH_Y p)
         (Panel.GRAPH_WIDTH p - Panel.PR p)%num (Panel.GRAPH_HEIGHT p)
         (Panel.GRAPH_X p) (Panel.GRAPH_Y p)
         (Panel.GRAPH_WIDTH p - Panel.PR p)%num (Panel.GRAPH_HEIGHT p);
       FillRect (Panel.evaluateStatsColor p value maxValue) (of_Z 1)
         (Panel.GRAPH_X p + Panel.GRAPH_WIDTH p - Panel.PR p)%num
         (Panel.GRAPH_Y p) (Panel.PR p) (Panel.GRAPH_HEIGHT p);
       FillRect (Panel.bg p) nine_tenths
         (Panel.GRAPH_X p + Panel.GRAPH_WIDTH p - Panel.PR p)%num
         (Panel.GRAPH_Y p) (Panel.PR p)
         (Math_round
            ((of_Z 1 - value / maxValue) * Panel.GRAPH_HEIGHT p)%num) ]).
Proof.
  intros min max text.
  unfold Panel.drawn, Panel.update, Panel.throws, drawImage.
  destruct (_ && _); destruct (Panel.showMaximum p); simpl;
    rewrite <- ?app_assoc; simpl; rewrite drop_app_length;
    try reflexivity;
    unfold text; rewrite !string_append_assoc; reflexivity.
Qed.


End Drawing.

(** C1.  Every [update(value, maxValue)] on a panel whose canvas has a
    non-zero width and a non-zero height returns and scrolls the graph left
    by one column: after the header calls it copies the rectangle of the
    panel's own canvas that starts at [GRAPH_X + PR], of width
    [GRAPH_WIDTH - PR] and the full graph height, to the rectangle of the
    same size that starts at [GRAPH_X] at the same [y], and then fills the
    rectangle [PR] wide and [GRAPH_HEIGHT] high at
    [x = GRAPH_X + GRAPH_WIDTH - PR] with the colour the policy returns, at
    opacity 1.  The call changes neither the scale, nor the graph region,
    nor the size of the canvas, so the next call scrolls the same region by
    the same column. *)
Theorem update_scrolls_graph_one_column
    (env : Env) (value maxValue : num) (p : Panel.t) :
  Panel.usable p = true ->
  let o := Panel.update env value maxValue p in
  let p' := after o in
  thrown o = None /\
  Panel.usable p' = true /\
  (Panel.PR p', Panel.GRAPH_X p', Panel.GRAPH_Y p',
   Panel.GRAPH_WIDTH p', Panel.GRAPH_HEIGHT p', Panel.dom p') =
  (Panel.PR p, Panel.GRAPH_X p, Panel.GRAPH_Y p,
   Panel.GRAPH_WIDTH p, Panel.GRAPH_HEIGHT p, Panel.dom p) /\
  exists erase text cap,
    Panel.drawn p p' =
    [ erase; text;
      DrawImage (of_Z 1) (Panel.dom p)
        (Panel.GRAPH_X p + Panel.PR p)%num (Panel.GRAPH_Y p)
        (Panel.GRAPH_WIDTH p - Panel.PR p)%num (Panel.GRAPH_HEIGHT p)
        (Panel.GRAPH_X p) (Panel.GRAPH_Y p)
        (Panel.GRAPH_WIDTH p - Panel.PR p)%num (Panel.GRAPH_HEIGHT p);
      FillRect (Panel.evaluateStatsColor p value maxValue) (of_Z 1)
        (Panel.GRAPH_X p + Panel.GRAPH_WIDTH p - Panel.PR p)%num
        (Panel.GRAPH_Y p) (Panel.PR p) (Panel.GRAPH_HEIGHT p);
      cap ].
Proof.
  intros Hu o p'. split_and!.
  - unfold o. now rewrite update_thrown, (usable_returns p Hu).
  - unfold p', o. now rewrite update_usable.
  - destruct (update_constants env value maxValue p)
      as (_ & C2 & C3 & C4 & _).
    fold o in C2, C3, C4. fold p' in C2, C3, C4. unfold Panel.dom.
    injection C2 as _ _ C2 _ _. injection C3 as _ _ C31 C32 C33 C34.
    injection C4 as C4 _ _. now rewrite C2, C31, C32, C33, C34, C4.
  - unfold p', o. rewrite update_drawn, (usable_returns p Hu).
    eexists _, _, _. reflexivity.
Qed.

(** The amended C1 on [update(30, 60)] of the FPS panel at device pixel
    ratio 1, whose canvas is 80 by 48. *)
Lemma update_scrolls_graph_one_column_witness :
  let p := Sample.fps in
  let o := Panel.update Sample.env (of_Z 30) (of_Z 60) p in
  let p' := after o in
  Panel.usable p = true /\
  thrown o = None /\
  Panel.usable p' = true /\
  (Panel.PR p', Panel.GRAPH_X p', Panel.GRAPH_Y p',
   Panel.GRAPH_WIDTH p', Panel.GRAPH_HEIGHT p', Panel.dom p') =
  (Panel.PR p, Panel.GRAPH_X p, Panel.GRAPH_Y p,
   Panel.GRAPH_WIDTH p, Panel.GRAPH_HEIGHT p, Panel.dom p) /\
  exists erase text cap,
    Panel.drawn p p' =
    [ erase; text;
      DrawImage (of_Z 1) (Panel.dom p)
        (Panel.GRAPH_X p + Panel.PR p)%num (Panel.GRAPH_Y p)
        (Panel.GRAPH_WIDTH p - Panel.PR p)%num (Panel.GRAPH_HEIGHT p)
        (Panel.GRAPH_X p) (Panel.GRAPH_Y p)
        (Panel.GRAPH_WIDTH p - Panel.PR p)%num (Panel.GRAPH_HEIGHT p);
      FillRect (Panel.evaluateStatsColor p (of_Z 30) (of_Z 60)) (of_Z 1)
        (Panel.GRAPH_X p + Panel.GRAPH_WIDTH p - Panel.PR p)%num
        (Panel.GRAPH_Y p) (Panel.PR p) (Panel.GRAPH_HEIGHT p);
      cap ].
Proof.
  split; [reflexivity|].
  apply (update_scrolls_graph_one_column Sample.env (of_Z 30) (of_Z 60)
           Sample.fps).
  reflexivity.
Defined.

(** C1 as the specification words it fails at device pixel ratio 0.25: the
    scale is [round(0.25) = 0], the canvas of the FPS panel is 0 by 0, and
    [update(30, 60)] stops at [drawImage] with an [InvalidStateError].  Only
    the header has been drawn: no rectangle was copied and no column was
    filled. *)
Lemma update_throws_on_empty_canvas :
  let p := Sample.fps_quarter in
  let o := Panel.update Sample.env_quarter (of_Z 30) (of_Z 60) p in
  let p' := after o in
  (Panel.canvas_width p, Panel.canvas_height p) = (0, 0)%Z /\
  thrown o = Some "InvalidStateError" /\
  Panel.drawn p p' =
    [ FillRect "#002" (of_Z 1) (of_Z 0) (of_Z 0) (of_Z 0) (of_Z 0);
      FillText "#0ff" (of_Z 1) (font (Panel.context p)) "top"
        "30FPS (30-30)" (of_Z 0) (of_Z 0) ] /\
  ~ (exists erase text cap,
       Panel.drawn p p' =
       [ erase; text;
         DrawImage (of_Z 1) (Panel.dom p)
           (Panel.GRAPH_X p + Panel.PR p)%num (Panel.GRAPH_Y p)
           (Panel.GRAPH_WIDTH p - Panel.PR p)%num (Panel.GRAPH_HEIGHT p)
           (Panel.GRAPH_X p) (Panel.GRAPH_Y p)
           (Panel.GRAPH_WIDTH p - Panel.PR p)%num (Panel.GRAPH_HEIGHT p);
         FillRect (Panel.evaluateStatsColor p (of_Z 30) (of_Z 60)) (of_Z 1)
           (Panel.GRAPH_X p + Panel.GRAPH_WIDTH p - Panel.PR p)%num
           (Panel.GRAPH_Y p) (Panel.PR p) (Panel.GRAPH_HEIGHT p);
         cap ]).
Proof.
  split_and!; try (vm_compute; reflexivity).
  intros (erase & text & cap & H).
  apply (f_equal length) in H. vm_compute in H. discriminate H.
Qed.



(** C4.  The text [update(value, maxValue)] writes at the text origin, in
    the colour of the policy, is
    ["<round(value)><name> (<round(min)>-<round(max)>)"], where [min] and
    [max] are the running statistics after they took [value] in, followed by
    ["/<maxValue>"] when [showMaximum] is set.  After [update(10, 60)] and
    [update(50, 60)] on a new panel named FPS the statistics are 10 and 50
    and the text is ["50FPS (10-50)"]. *)
Theorem update_writes_header
    (env : Env) (value maxValue : num) (p : Panel.t)
    (fg bg : string) (width height : num) (d : Document) :
  let min := Math_min [Panel.min p; value] in
  let max := Math_max [Panel.max p; value] in
  let text :=
    template env (Math_round value) +:+ Panel.name p +:+ " (" +:+
    template env (Math_round min) +:+ "-" +:+
    template env (Math_round max) +:+ ")" in
  let p0 := (Panel.StatsPanel env "FPS" fg bg width height false d).1 in
  let p1 := after (Panel.update env (of_Z 10) (of_Z 60) p0) in
  let p2 := after (Panel.update env (of_Z 50) (of_Z 60) p1) in
  (exists erase rest,
     Panel.drawn p (after (Panel.update env value maxValue p)) =
     erase ::
     FillText (Panel.evaluateStatsColor p value maxValue) (of_Z 1)
       (font (Panel.context p)) (textBaseline (Panel.context p))
       (if Panel.showMaximum p
        then text +:+ "/" +:+ template env maxValue else text)
       (Panel.TEXT_X p) (Panel.TEXT_Y p) ::
     rest) /\
  Panel.min (after (Panel.update env value maxValue p)) = min /\
  Panel.max (after (Panel.update env value maxValue p)) = max /\
  Panel.min p2 = of_Z 10 /\ Panel.max p2 = of_Z 50 /\
  Panel.drawn p1 p2 !! 1 =
    Some (FillText fg (of_Z 1) (font (Panel.context p0)) "top"
            "50FPS (10-50)" (Panel.TEXT_X p0) (Panel.TEXT_Y p0)).
Proof.
  intros min max text p0 p1 p2. split_and!.
  - rewrite update_drawn. eexists _, _. reflexivity.
  - apply update_min.
  - apply update_max.
  - unfold p2. rewrite update_min. unfold p1. rewrite update_min.
    reflexivity.
  - unfold p2. rewrite update_max. unfold p1. rewrite update_max.
    reflexivity.
  - destruct (update_constants env (of_Z 10) (of_Z 60) p0)
      as (C1 & _ & C3 & _ & C5).
    destruct (update_text_style env (of_Z 10) (of_Z 60) p0) as (F1 & F2).
    pose proof (update_min env (of_Z 10) (of_Z 60) p0) as M1.
    pose proof (update_max env (of_Z 10) (of_Z 60) p0) as M2.
    fold p1 in C1, C3, C5, F1, F2, M1, M2.
    injection C1 as N1 _ _ N4. injection C3 as T1 T2 _ _ _ _.
    unfold p2. rewrite update_drawn.
    rewrite C5, F1, F2, N1, N4, T1, T2, M1, M2. reflexivity.
Qed.

(* ================================================================= *)
(** ** Reading the document after each DOM operation *)

Section DomLemmas.

Implicit Types (d : Document) (n c : node).

Lemma display_of_createElement tag d n :
  display_of (createElement tag d).2 n =
  if decide (fresh d = n) then "" else display_of d n.
Proof.
  unfold display_of. simpl. rewrite lookup_insert.
  destruct (decide (fresh d = n)); reflexivity.
Qed.

Lemma children_of_createElement tag d n :
  children_of (createElement tag d).2 n =
  if decide (fresh d = n) then [] else children_of d n.
Proof.
  unfold children_of. simpl. rewrite lookup_insert.
  destruct (decide (fresh d = n)); reflexivity.
Qed.

Lemma elements_createElement tag d n :
  is_Some (elements (createElement tag d).2 !! n) <->
  fresh d = n \/ is_Some (elements d !! n).
Proof. simpl. rewrite lookup_insert_is_Some'. reflexivity. Qed.

Lemma display_of_set_cssText n text d c :
  display_of (set_cssText n text d) c =
  if decide (n = c) then "" else display_of d c.
Proof.
  unfold display_of. simpl. rewrite lookup_alter.
  destruct (decide (n = c)) as [->|]; [|reflexivity].
  destruct (elements d !! c); reflexivity.
Qed.

Lemma children_of_set_cssText n text d c :
  children_of (set_cssText n text d) c = children_of d c.
Proof.
  unfold children_of. simpl. rewrite lookup_alter.
  destruct (decide (n = c)) as [->|]; [|reflexivity].
  destruct (elements d !! c); reflexivity.
Qed.

Lemma elements_set_cssText n text d c :
  is_Some (elements (set_cssText n text d) !! c) <->
  is_Some (elements d !! c).
Proof. simpl. apply lookup_alter_is_Some. Qed.

Lemma display_of_set_display n value d c :
  display_of (set_display n value d) c =
  if decide (n = c)
  then match elements d !! n with Some _ => value | None => "" end
  else display_of d c.
Proof.
  unfold display_of. simpl. rewrite lookup_alter.
  destruct (decide (n = c)) as [->|]; [|reflexivity].
  destruct (elements d !! c); reflexivity.
Qed.

Lemma children_of_set_display n value d c :
  children_of (set_display n value d) c = children_of d c.
Proof.
  unfold children_of. simpl. rewrite lookup_alter.
  destruct (decide (n = c)) as [->|]; [|reflexivity].
  destruct (elements d !! c); reflexivity.
Qed.

Lemma elements_set_display n value d c :
  is_Some (elements (set_display n value d) !! c) <->
  is_Some (elements d !! c).
Proof. simpl. apply lookup_alter_is_Some. Qed.

(** [appendChild] changes no inline style. *)
Lemma display_of_appendChild parent child d c :
  display_of (appendChild parent child d) c = display_of d c.
Proof.
  unfold display_of. simpl. rewrite lookup_alter, !lookup_fmap.
  destruct (decide (parent = c)) as [->|];
    destruct (elements d !! c); reflexivity.
Qed.

Lemma children_of_appendChild parent child d c :
  children_of (appendChild parent child d) c =
  if decide (parent = c)
  then match elements d !! parent with
       | Some _ =>
           (filter (fun x => x ≠ child) (children_of d parent) ++ [child])%list
       | None => []
       end
  else filter (fun x => x ≠ child) (children_of d c).
Proof.
  unfold children_of. simpl. rewrite lookup_alter, !lookup_fmap.
  destruct (decide (parent = c)) as [->|];
    destruct (elements d !! c); reflexivity.
Qed.

Lemma elements_appendChild parent child d c :
  is_Some (elements (appendChild parent child d) !! c) <->
  is_Some (elements d !! c).
Proof.
  simpl. rewrite lookup_alter_is_Some, lookup_fmap, fmap_is_Some.
  reflexivity.
Qed.

Lemma filter_ne_id (child : node) (l : list node) :
  child ∉ l -> filter (fun x => x ≠ child) l = l.
Proof.
  induction l as [|x l IH]; intros H; [reflexivity|].
  apply not_elem_of_cons in H as [Hx Hl].
  rewrite filter_cons_True by congruence. now rewrite IH.
Qed.

(** An element without children contains only itself. *)
Lemma contains_leaf d a b : children_of d a = [] -> contains d a b -> a = b.
Proof.
  intros Hleaf H. destruct H as [n|a c b Hc _]; [reflexivity|].
  rewrite Hleaf in Hc. now apply elem_of_nil in Hc.
Qed.

(** Containment only reads the children. *)
Lemma contains_ext d d' a b :
  (forall n, children_of d' n = children_of d n) ->
  contains d' a b -> contains d a b.
Proof.
  intros Hext H. induction H as [n|a c b Hc _ IH].
  - apply contains_self.
  - apply (contains_child d a c b); [|exact IH]. now rewrite <- Hext.
Qed.

(** Appending a child to [parent] adds no ancestor to [parent]. *)
Lemma contains_appendChild parent child d a :
  contains (appendChild parent child d) a parent -> contains d a parent.
Proof.
  intros H. remember parent as b eqn:Hb in H at 2.
  induction H as [n|a c b Hc _ IH].
  - subst. apply contains_self.
  - specialize (IH Hb). subst b.
    rewrite children_of_appendChild in Hc.
    destruct (decide (parent = a)) as [->|Hne]; [apply contains_self|].
    apply list_elem_of_filter in Hc as [_ Hc].
    now apply (contains_child d a c parent).
Qed.

End DomLemmas.

(* ================================================================= *)
(** ** showPanel *)

Section ShowPanel.

Implicit Types (d : Document) (c : node) (cs : list node) (s : Overlay.Scope.t).

Lemma showPanel_loop_children id i cs d c :
  children_of (Overlay.showPanel_loop id i cs d) c = children_of d c.
Proof.
  revert i d. induction cs as [|x cs IH]; intros i d; simpl; [reflexivity|].
  now rewrite IH, children_of_set_display.
Qed.

Lemma showPanel_loop_elements id i cs d c :
  is_Some (elements (Overlay.showPanel_loop id i cs d) !! c) <->
  is_Some (elements d !! c).
Proof.
  revert i d. induction cs as [|x cs IH]; intros i d; simpl; [reflexivity|].
  now rewrite IH, elements_set_display.
Qed.

(** The loop leaves the elements it does not visit as they are. *)
Lemma showPanel_loop_other id i cs d c :
  c ∉ cs ->
  display_of (Overlay.showPanel_loop id i cs d) c = display_of d c.
Proof.
  revert i d. induction cs as [|x cs IH]; intros i d Hc; simpl;
    [reflexivity|].
  apply not_elem_of_cons in Hc as [Hx Hc].
  rewrite IH by assumption. rewrite display_of_set_display.
  destruct (decide (x = c)); congruence.
Qed.

Lemma showPanel_loop_head id i c cs d :
  c ∉ cs -> is_Some (elements d !! c) ->
  display_of (Overlay.showPanel_loop id i (c :: cs) d) c =
  if (i =? id)%Z then "block" else "none".
Proof.
  intros Hc [e He]. simpl. rewrite showPanel_loop_other by assumption.
  rewrite display_of_set_display, He.
  destruct (decide (c = c)); congruence.
Qed.

Lemma Forall_elements_set_display n value d cs :
  Forall (fun c => is_Some (elements d !! c)) cs ->
  Forall (fun c => is_Some (elements (set_display n value d) !! c)) cs.
Proof.
  intros H. eapply Forall_impl; [exact H|].
  intros c. now rewrite elements_set_display.
Qed.

(** Child [k] of the list, visited with counter [i + k], is shown when
    that counter is [id] and hidden otherwise. *)
Lemma showPanel_loop_displays id i cs d :
  NoDup cs -> Forall (fun c => is_Some (elements d !! c)) cs ->
  display_of (Overlay.showPanel_loop id i cs d) <$> cs =
  imap (fun k _ => if (i + Z.of_nat k =? id)%Z then "block" else "none") cs.
Proof.
  revert i d. induction cs as [|c cs IH]; intros i d Hnd Hin;
    [reflexivity|].
  apply NoDup_cons in Hnd as [Hc Hnd].
  apply Forall_cons in Hin as [Hc' Hin].
  rewrite fmap_cons, imap_cons. f_equal.
  - rewrite showPanel_loop_head by assumption.
    now rewrite Z.add_0_r.
  - simpl. rewrite IH; [|assumption|now apply Forall_elements_set_display].
    apply imap_ext. intros k x _. simpl.
    now replace (i + 1 + Z.of_nat k)%Z with (i + Z.of_nat (S k))%Z by lia.
Qed.

Lemma showPanel_loop_visible id i cs d :
  NoDup cs -> Forall (fun c => is_Some (elements d !! c)) cs ->
  filter (fun c => visible (Overlay.showPanel_loop id i cs d) c = true) cs =
  if (i <=? id)%Z then option_list (cs !! Z.to_nat (id - i)) else [].
Proof.
  revert i d. induction cs as [|c cs IH]; intros i d Hnd Hin.
  - simpl. destruct (i <=? id)%Z; reflexivity.
  - apply NoDup_cons in Hnd as [Hc Hnd].
    apply Forall_cons in Hin as [Hc' Hin].
    pose proof (showPanel_loop_head id i c cs d Hc Hc') as Hhead.
    assert (Htail :
      filter (fun x => visible (Overlay.showPanel_loop id i (c :: cs) d) x
                       = true) cs =
      if (i + 1 <=? id)%Z then option_list (cs !! Z.to_nat (id - (i + 1)))
      else []).
    { simpl. apply IH; [assumption|now apply Forall_elements_set_display]. }
    destruct (Z.eqb_spec i id) as [->|Hne].
    + rewrite filter_cons_True
        by (unfold visible; rewrite Hhead; reflexivity).
      rewrite Htail.
      destruct (Z.leb_spec (id + 1) id); [lia|].
      rewrite Z.leb_refl, Z.sub_diag. reflexivity.
    + rewrite filter_cons_False
        by (unfold visible; rewrite Hhead; simpl; congruence).
      rewrite Htail.
      destruct (Z.leb_spec (i + 1) id), (Z.leb_spec i id); try lia;
        [|reflexivity].
      replace (Z.to_nat (id - i)) with (S (Z.to_nat (id - (i + 1))))
        by lia.
      reflexivity.
Qed.

Lemma showPanel_panels id s :
  Overlay.panels (Overlay.showPanel id s) = Overlay.panels s.
Proof. unfold Overlay.panels. simpl. apply showPanel_loop_children. Qed.

Lemma showPanel_well_formed id s :
  Overlay.well_formed s -> Overlay.well_formed (Overlay.showPanel id s).
Proof.
  intros (Hc & Hnd & Hin). unfold Overlay.well_formed.
  rewrite showPanel_panels. repeat split.
  - simpl. now rewrite showPanel_loop_elements.
  - assumption.
  - eapply Forall_impl; [exact Hin|].
    intros c Hx. simpl. now rewrite showPanel_loop_elements.
Qed.

(** One [showPanel(id)] on a container in order. *)
Lemma showPanel_spec id s :
  Overlay.well_formed s ->
  Overlay.displays (Overlay.showPanel id s) =
    imap (fun k _ => if (Z.of_nat k =? id)%Z then "block" else "none")
         (Overlay.panels s) /\
  Overlay.visible_panels (Overlay.showPanel id s) =
    option_list (Overlay.panel_at s id).
Proof.
  intros (Hc & Hnd & Hin).
  unfold Overlay.displays, Overlay.visible_panels, Overlay.panel_at.
  rewrite showPanel_panels. simpl. split.
  - now rewrite showPanel_loop_displays.
  - rewrite showPanel_loop_visible by assumption.
    rewrite Z.sub_0_r. destruct (0 <=? id)%Z; reflexivity.
Qed.

Lemma length_option_list_panel_at s j :
  length (option_list (Overlay.panel_at s j)) =
  if (0 <=? j)%Z && (j <? Z.of_nat (length (Overlay.panels s)))%Z
  then 1 else 0.
Proof.
  unfold Overlay.panel_at.
  destruct (Z.leb_spec 0 j); [|reflexivity]. simpl.
  destruct (Z.ltb_spec j (Z.of_nat (length (Overlay.panels s)))).
  - destruct (lookup_lt_is_Some_2 (Overlay.panels s) (Z.to_nat j))
      as [c ->]; [lia|reflexivity].
  - rewrite lookup_ge_None_2 by lia. reflexivity.
Qed.

End ShowPanel.

(** C6.  [showPanel] does not check its index.  On every overlay, after
    [showPanel(i)] and then [showPanel(j)], each registered panel has
    [display] ['block'] if it is panel [j] and ['none'] otherwise; the
    visible panels are panel [j] alone when [0 <= j < n], and none at all
    when [j] is out of range, in which case every registered panel is
    hidden.  The call returns in both cases and records [j]. *)
Theorem showPanel_shows_only_its_index (s : Overlay.Scope.t) (i j : Z) :
  Overlay.well_formed s ->
  let n := Z.of_nat (length (Overlay.panels s)) in
  let s' := Overlay.showPanel j (Overlay.showPanel i s) in
  Overlay.panels s' = Overlay.panels s /\
  Overlay.displays s' =
    imap (fun k _ => if (Z.of_nat k =? j)%Z then "block" else "none")
         (Overlay.panels s) /\
  Overlay.visible_panels s' = option_list (Overlay.panel_at s j) /\
  length (Overlay.visible_panels s') =
    (if (0 <=? j)%Z && (j <? n)%Z then 1 else 0) /\
  Overlay.Scope.currentPanelIndex s' = j.
Proof.
  intros Hwf n s'.
  pose proof (showPanel_well_formed i s Hwf) as Hwf'.
  destruct (showPanel_spec j _ Hwf') as [Hd Hv].
  fold s' in Hd, Hv.
  assert (Hp : Overlay.panels (Overlay.showPanel i s) = Overlay.panels s)
    by apply showPanel_panels.
  assert (Hat : Overlay.panel_at (Overlay.showPanel i s) j =
                Overlay.panel_at s j)
    by (unfold Overlay.panel_at; now rewrite Hp).
  rewrite Hp in Hd. rewrite Hat in Hv.
  repeat split.
  - unfold s'. now rewrite !showPanel_panels.
  - exact Hd.
  - exact Hv.
  - rewrite Hv. apply length_option_list_panel_at.
Qed.

(* ================================================================= *)
(** ** Constructing the overlay *)

Section Construction.

Variable env : Env.
Variables width height : num.
Variable showMaximum : bool.

(** A panel made in document [d] and appended to the element [c] of [d]
    becomes the last child of [c]; its canvas is the element [fresh d],
    with no inline [display]. *)
Lemma StatsPanel_registered name fg bg (c : node) (d : Document) :
  is_Some (elements d !! c) -> c ≠ fresh d ->
  let P := Panel.StatsPanel env name fg bg width height showMaximum d in
  let d' := appendChild c (Panel.dom P.1) P.2 in
  Panel.dom P.1 = fresh d /\ Panel.name P.1 = name /\
  fresh d' = S (fresh d) /\
  (forall n, is_Some (elements d' !! n) <->
             fresh d = n \/ is_Some (elements d !! n)) /\
  children_of d' c =
    (filter (fun x => x ≠ fresh d) (children_of d c) ++ [fresh d])%list /\
  (forall n, display_of d' n =
             if decide (fresh d = n) then "" else display_of d n).
Proof.
  intros Hc Hne P d'.
  assert (HP2 : exists css,
             P.2 = set_cssText (fresh d) css (createElement "canvas" d).2)
    by (eexists; reflexivity).
  destruct HP2 as [css HP2].
  assert (HP1 : Panel.dom P.1 = fresh d) by reflexivity.
  unfold d'. rewrite HP1, HP2. clear HP1 HP2.
  repeat split.
  - intros H. rewrite elements_appendChild, elements_set_cssText in H.
    now apply elements_createElement in H.
  - intros H. rewrite elements_appendChild, elements_set_cssText.
    now apply elements_createElement.
  - rewrite children_of_appendChild.
    destruct (decide (c = c)) as [_|]; [|congruence].
    assert (is_Some (elements (set_cssText (fresh d) css
                                 (createElement "canvas" d).2) !! c))
      as [e ->].
    { rewrite elements_set_cssText. apply elements_createElement.
      now right. }
    rewrite children_of_set_cssText, children_of_createElement.
    destruct (decide (fresh d = c)); [congruence|reflexivity].
  - intros n. rewrite display_of_appendChild, display_of_set_cssText.
    rewrite display_of_createElement.
    destruct (decide (fresh d = n)); reflexivity.
Qed.

(** [Stats], with the pairs it threads taken apart. *)
Lemma Stats_eq (d : Document) :
  let c := fresh d in
  let d0 := set_cssText c "opacity:0.71;z-index:10000"
              (createElement "div" d).2 in
  let P1 := Panel.StatsPanel env "FPS" "#0ff" "#002" width height
              showMaximum d0 in
  let d1 := appendChild c (Panel.dom P1.1) P1.2 in
  let P2 := Panel.StatsPanel env "MS" "#0f0" "#020" width height
              showMaximum d1 in
  let d2 := appendChild c (Panel.dom P2.1) P2.2 in
  let P3 := Panel.StatsPanel env "MB" "#f08" "#201" width height
              showMaximum d2 in
  let d3 := appendChild c (Panel.dom P3.1) P3.2 in
  Overlay.Stats env width height showMaximum d =
  ({| Overlay.REVISION := 17;
      Overlay.currentPanelIndex := 0;
      Overlay.dom := c;
      Overlay.fpsPanel := P1.1;
      Overlay.msPanel := P2.1;
      Overlay.memPanel :=
        if performance_memory env then Some P3.1 else None |},
   Overlay.showPanel 0
     {| Overlay.Scope.currentPanelIndex := 0;
        Overlay.Scope.container := c;
        Overlay.Scope.document :=
          if performance_memory env then d3 else d2 |}).
Proof.
  unfold Overlay.Stats. destruct (performance_memory env); reflexivity.
Qed.

(** The overlay as [Stats] leaves it. *)
Lemma Stats_spec (d : Document) :
  let c := fresh d in
  let r := Overlay.Stats env width height showMaximum d in
  let mem := performance_memory env in
  Overlay.dom r.1 = c /\ Overlay.Scope.container r.2 = c /\
  Overlay.currentPanelIndex r.1 = 0%Z /\
  Overlay.Scope.currentPanelIndex r.2 = 0%Z /\
  Panel.dom (Overlay.fpsPanel r.1) = S c /\
  Panel.name (Overlay.fpsPanel r.1) = "FPS" /\
  Panel.dom (Overlay.msPanel r.1) = S (S c) /\
  Panel.name (Overlay.msPanel r.1) = "MS" /\
  Panel.dom <$> Overlay.memPanel r.1 =
    (if mem then Some (S (S (S c))) else None) /\
  Panel.name <$> Overlay.memPanel r.1 =
    (if mem then Some "MB" else None) /\
  Overlay.panels r.2 =
    S c :: S (S c) :: (if mem then [S (S (S c))] else []) /\
  Overlay.well_formed r.2 /\
  Overlay.displays r.2 =
    "block" :: "none" :: (if mem then ["none"] else []) /\
  Overlay.visible_panels r.2 = [S c].
Proof.
  intros c r mem. unfold r. rewrite Stats_eq. fold c.
  set (d0 := set_cssText c "opacity:0.71;z-index:10000"
               (createElement "div" d).2).
  set (P1 := Panel.StatsPanel env "FPS" "#0ff" "#002" width height
               showMaximum d0).
  set (d1 := appendChild c (Panel.dom P1.1) P1.2).
  set (P2 := Panel.StatsPanel env "MS" "#0f0" "#020" width height
               showMaximum d1).
  set (d2 := appendChild c (Panel.dom P2.1) P2.2).
  set (P3 := Panel.StatsPanel env "MB" "#f08" "#201" width height
               showMaximum d2).
  set (d3 := appendChild c (Panel.dom P3.1) P3.2).
  (* the container, before any panel *)
  assert (E0 : is_Some (elements d0 !! c)).
  { unfold d0. rewrite elements_set_cssText.
    apply elements_createElement. now left. }
  assert (F0 : fresh d0 = S c) by reflexivity.
  assert (C0 : children_of d0 c = []).
  { unfold d0. rewrite children_of_set_cssText, children_of_createElement.
    fold c. destruct (decide (c = c)); congruence. }
  (* FPS *)
  pose proof (StatsPanel_registered "FPS" "#0ff" "#002" c d0 E0
                ltac:(rewrite F0; lia)) as H1.
  cbv zeta in H1. fold P1 in H1. fold d1 in H1.
  destruct H1 as (D1 & N1 & F1 & E1 & C1 & S1).
  rewrite F0 in D1, F1, E1, C1, S1. rewrite C0 in C1. simpl in C1.
  (* MS *)
  pose proof (StatsPanel_registered "MS" "#0f0" "#020" c d1
                ltac:(apply E1; now right) ltac:(rewrite F1; lia)) as H2.
  cbv zeta in H2. fold P2 in H2. fold d2 in H2.
  destruct H2 as (D2 & N2 & F2 & E2 & C2 & S2).
  rewrite F1 in D2, F2, E2, C2, S2. rewrite C1 in C2.
  rewrite filter_ne_id in C2 by (rewrite list_elem_of_singleton; lia).
  simpl in C2.
  (* MB *)
  pose proof (StatsPanel_registered "MB" "#f08" "#201" c d2
                ltac:(apply E2; right; apply E1; now right)
                ltac:(rewrite F2; lia)) as H3.
  cbv zeta in H3. fold P3 in H3. fold d3 in H3.
  destruct H3 as (D3 & N3 & F3 & E3 & C3 & S3).
  rewrite F2 in D3, F3, E3, C3, S3. rewrite C2 in C3.
  rewrite filter_ne_id in C3
    by (rewrite !not_elem_of_cons; repeat split;
        [lia|lia|apply not_elem_of_nil]).
  simpl in C3.
  (* the scope [showPanel(0)] runs in *)
  set (pre := {| Overlay.Scope.currentPanelIndex := 0;
                 Overlay.Scope.container := c;
                 Overlay.Scope.document := if mem then d3 else d2 |}).
  assert (Hpanels : Overlay.panels pre =
                    S c :: S (S c) :: (if mem then [S (S (S c))] else [])).
  { unfold Overlay.panels, pre. simpl. destruct mem; assumption. }
  assert (Hwf : Overlay.well_formed pre).
  { unfold Overlay.well_formed. rewrite Hpanels. unfold pre. simpl.
    destruct mem.
    - split; [apply E3; right; apply E2; right; apply E1; now right|].
      split.
      + repeat (apply NoDup_cons; split;
                [rewrite ?not_elem_of_cons; repeat split;
                 try lia; apply not_elem_of_nil|]).
        apply NoDup_nil. exact I.
      + repeat apply Forall_cons_2; [| | |apply Forall_nil_2].
        * apply E3; right; apply E2; right; apply E1; now left.
        * apply E3; right; apply E2; now left.
        * apply E3; now left.
    - split; [apply E2; right; apply E1; now right|].
      split.
      + repeat (apply NoDup_cons; split;
                [rewrite ?not_elem_of_cons; repeat split;
                 try lia; apply not_elem_of_nil|]).
        apply NoDup_nil. exact I.
      + repeat apply Forall_cons_2; [| |apply Forall_nil_2].
        * apply E2; right; apply E1; now left.
        * apply E2; now left. }
  destruct (showPanel_spec 0 pre Hwf) as [Hdisp Hvis].
  unfold Overlay.panel_at in Hvis.
  rewrite Hpanels in Hdisp, Hvis.
  split_and!.
  - reflexivity.
  - reflexivity.
  - reflexivity.
  - reflexivity.
  - exact D1.
  - exact N1.
  - exact D2.
  - exact N2.
  - cbn [fst Overlay.memPanel]. fold mem. destruct mem; [|reflexivity].
    change (Some (Panel.dom P3.1) = Some (S (S (S c)))). now rewrite D3.
  - cbn [fst Overlay.memPanel]. fold mem. destruct mem; [|reflexivity].
    change (Some (Panel.name P3.1) = Some "MB"). now rewrite N3.
  - cbn [snd]. rewrite showPanel_panels. exact Hpanels.
  - cbn [snd]. apply showPanel_well_formed, Hwf.
  - refine (eq_trans Hdisp _). destruct mem; reflexivity.
  - exact Hvis.
Qed.

End Construction.


(** C5.  [showPanel(j)] records [j] in the variable [currentPanelIndex] that
    the two functions close over.  The property [currentPanelIndex] of the
    object [Stats] returns was copied from that variable when the object was
    built, after [showPanel(0)], and no call reaches it: it is 0 whatever
    [j] was shown since. *)
Theorem exposed_index_stays_zero
    env width height showMaximum (d : Document) (j : Z) :
  let r := Overlay.Stats env width height showMaximum d in
  let s' := Overlay.showPanel j r.2 in
  Overlay.Scope.currentPanelIndex s' = j /\
  Overlay.currentPanelIndex r.1 = 0%Z.
Proof.
  intros r s'. split; [reflexivity|].
  apply (Stats_spec env width height showMaximum d).
Qed.

(** C8.  [Stats] registers the panel named FPS first and the panel named MS
    second, then the panel named MB exactly when the environment has the
    memory API; these are all the panels of the new overlay, two or three
    accordingly.  The environment is read by [Stats] alone: [showPanel]
    takes no environment and registers nothing. *)
Theorem Stats_registers_builtin_panels
    env width height showMaximum (d : Document) :
  let r := Overlay.Stats env width height showMaximum d in
  let mem := performance_memory env in
  Overlay.panels r.2 =
    Panel.dom (Overlay.fpsPanel r.1) :: Panel.dom (Overlay.msPanel r.1) ::
    option_list (Panel.dom <$> Overlay.memPanel r.1) /\
  Panel.name (Overlay.fpsPanel r.1) = "FPS" /\
  Panel.name (Overlay.msPanel r.1) = "MS" /\
  Panel.name <$> Overlay.memPanel r.1 = (if mem then Some "MB" else None) /\
  length (Overlay.panels r.2) = (if mem then 3 else 2) /\
  NoDup (Overlay.panels r.2) /\
  (forall j, Overlay.panels (Overlay.showPanel j r.2) = Overlay.panels r.2).
Proof.
  intros r mem.
  destruct (Stats_spec env width height showMaximum d)
    as (_ & _ & _ & _ & D1 & N1 & D2 & N2 & D3 & N3 & Hp & Hwf & _).
  fold r in D1, N1, D2, N2, D3, N3, Hp, Hwf. fold mem in D3, N3, Hp.
  split_and!.
  - rewrite Hp, D1, D2, D3. destruct mem; reflexivity.
  - exact N1.
  - exact N2.
  - exact N3.
  - rewrite Hp. destruct mem; reflexivity.
  - apply Hwf.
  - intros j. apply showPanel_panels.
Qed.

(** C9.  [Stats] ends with [showPanel(0)]: in the overlay it returns, the
    first registered panel, FPS, has [display] ['block'] and every other
    registered panel has ['none']. *)
Theorem Stats_shows_first_panel
    env width height showMaximum (d : Document) :
  let r := Overlay.Stats env width height showMaximum d in
  Overlay.displays r.2 =
    "block" :: replicate (length (Overlay.panels r.2) - 1) "none" /\
  Overlay.visible_panels r.2 = [Panel.dom (Overlay.fpsPanel r.1)] /\
  Overlay.Scope.currentPanelIndex r.2 = 0%Z.
Proof.
  intros r.
  destruct (Stats_spec env width height showMaximum d)
    as (_ & _ & _ & H0 & D1 & _ & _ & _ & _ & _ & Hp & _ & Hd & Hv).
  fold r in H0, D1, Hp, Hd, Hv.
  split_and!.
  - rewrite Hd, Hp. destruct (performance_memory env); reflexivity.
  - rewrite Hv, D1. reflexivity.
  - exact H0.
Qed.

(* ================================================================= *)
(** ** addPanel *)

Section AddPanel.

Implicit Types (s : Overlay.Scope.t) (panel : Panel.t).

Lemma addPanel_panels panel s :
  is_Some (elements (Overlay.Scope.document s) !! Overlay.Scope.container s) ->
  Overlay.panels (Overlay.addPanel panel s).2 =
  (filter (fun x => x ≠ Panel.dom panel) (Overlay.panels s)
     ++ [Panel.dom panel])%list.
Proof.
  intros [e He]. unfold Overlay.panels. simpl.
  rewrite children_of_appendChild, He.
  destruct (decide (Overlay.Scope.container s = Overlay.Scope.container s));
    [reflexivity|congruence].
Qed.

Lemma addPanel_display panel s n :
  display_of (Overlay.Scope.document (Overlay.addPanel panel s).2) n =
  display_of (Overlay.Scope.document s) n.
Proof. simpl. apply display_of_appendChild. Qed.

Lemma addPanel_elements panel s n :
  is_Some (elements (Overlay.Scope.document (Overlay.addPanel panel s).2)
             !! n) <->
  is_Some (elements (Overlay.Scope.document s) !! n).
Proof. apply elements_appendChild. Qed.

Lemma addPanel_well_formed panel s :
  Overlay.well_formed s ->
  is_Some (elements (Overlay.Scope.document s) !! Panel.dom panel) ->
  Overlay.well_formed (Overlay.addPanel panel s).2.
Proof.
  intros (Hc & Hnd & Hin) Hp. unfold Overlay.well_formed.
  rewrite addPanel_panels by assumption. split_and!.
  - now apply addPanel_elements.
  - apply NoDup_app. split_and!.
    + now apply NoDup_filter.
    + intros x Hx Hx'. apply list_elem_of_filter in Hx as [Hx _].
      apply list_elem_of_singleton in Hx'. contradiction.
    + apply NoDup_singleton.
  - apply Forall_app. split.
    + apply Forall_forall. intros x Hx.
      apply list_elem_of_filter in Hx as [_ Hx].
      apply addPanel_elements.
      rewrite Forall_forall in Hin. now apply Hin.
    + apply Forall_singleton. now apply addPanel_elements.
Qed.

End AddPanel.

(** C10.  [addPanel(panel)], for a panel whose canvas is an element that
    is not the container and does not contain it (the children the DOM
    accepts), returns the panel and makes its canvas the last child of the
    container; it changes the [display] of no element, that of the added
    canvas included.  So when panel [i] is shown and a panel that is visible
    and not yet registered is added, panel [i] and the new panel are both
    visible; the next [showPanel] leaves at most one.  [showPanel] moves no
    element, so the DOM accepts the canvas after it as it did before. *)
Theorem addPanel_leaves_display_alone
    (s : Overlay.Scope.t) (panel : Panel.t) (i : Z) (c : node) :
  Overlay.well_formed s ->
  is_Some (elements (Overlay.Scope.document s) !! Panel.dom panel) ->
  Panel.dom panel ≠ Overlay.Scope.container s ->
  ~ contains (Overlay.Scope.document s) (Panel.dom panel)
      (Overlay.Scope.container s) ->
  Panel.dom panel ∉ Overlay.panels s ->
  visible (Overlay.Scope.document s) (Panel.dom panel) = true ->
  Overlay.panel_at s i = Some c ->
  let s1 := Overlay.showPanel i s in
  let r := Overlay.addPanel panel s1 in
  ~ contains (Overlay.Scope.document s1) (Panel.dom panel)
      (Overlay.Scope.container s1) /\
  r.1 = panel /\
  (forall n, display_of (Overlay.Scope.document r.2) n =
             display_of (Overlay.Scope.document s1) n) /\
  Overlay.panels r.2 = (Overlay.panels s1 ++ [Panel.dom panel])%list /\
  Overlay.visible_panels r.2 = [c; Panel.dom panel] /\
  (forall k, Overlay.visible_panels (Overlay.showPanel k r.2) =
             option_list (Overlay.panel_at r.2 k)).
Proof.
  intros Hwf Hel Hne Hacc Hnew Hvis Hat s1 r.
  pose proof (showPanel_well_formed i s Hwf) as Hwf1. fold s1 in Hwf1.
  assert (Hp1 : Overlay.panels s1 = Overlay.panels s)
    by apply showPanel_panels.
  assert (Hel1 : is_Some (elements (Overlay.Scope.document s1)
                            !! Panel.dom panel)).
  { unfold s1. simpl. now rewrite showPanel_loop_elements. }
  assert (Hpanels : Overlay.panels r.2 =
                    (Overlay.panels s1 ++ [Panel.dom panel])%list).
  { unfold r. rewrite addPanel_panels by apply Hwf1.
    rewrite filter_ne_id; [reflexivity|]. now rewrite Hp1. }
  split_and!.
  - intros H. apply Hacc. revert H. apply contains_ext.
    intros n. apply showPanel_loop_children.
  - reflexivity.
  - intros n. apply addPanel_display.
  - exact Hpanels.
  - unfold Overlay.visible_panels. rewrite Hpanels, filter_app.
    assert (Hsame : forall l : list node,
      filter (fun x => visible (Overlay.Scope.document r.2) x = true) l =
      filter (fun x => visible (Overlay.Scope.document s1) x = true) l).
    { intros l. apply list_filter_iff. intros x. unfold visible, r.
      now rewrite addPanel_display. }
    rewrite !Hsame.
    destruct (showPanel_spec i s Hwf) as [_ Hv].
    unfold Overlay.visible_panels in Hv. fold s1 in Hv.
    rewrite Hv, Hat. simpl.
    rewrite filter_cons_True; [reflexivity|].
    unfold visible, s1. simpl.
    rewrite showPanel_loop_other by exact Hnew. exact Hvis.
  - intros k. apply showPanel_spec.
    now apply addPanel_well_formed.
Qed.

(* ================================================================= *)
(** ** The theorems on sample inputs *)

(** C6 on the overlay of a browser with the memory API: [showPanel(0)],
    then [showPanel(2)]. *)
Lemma showPanel_shows_only_its_index_witness :
  let s := Sample.stats_memory.2 in
  let n := Z.of_nat (length (Overlay.panels s)) in
  let s' := Overlay.showPanel 2 (Overlay.showPanel 0 s) in
  Overlay.panels s' = Overlay.panels s /\
  Overlay.displays s' =
    imap (fun k _ => if (Z.of_nat k =? 2)%Z then "block" else "none")
         (Overlay.panels s) /\
  Overlay.visible_panels s' = option_list (Overlay.panel_at s 2) /\
  length (Overlay.visible_panels s') =
    (if (0 <=? 2)%Z && (2 <? n)%Z then 1 else 0) /\
  Overlay.Scope.currentPanelIndex s' = 2%Z.
Proof.
  apply (showPanel_shows_only_its_index Sample.stats_memory.2 0 2).
  unfold Overlay.well_formed.
  apply (bool_decide_unpack _). vm_compute. exact I.
Defined.

(** C10 on the default overlay: FPS is shown, then a third panel is made
    and added. *)
Lemma addPanel_leaves_display_alone_witness :
  let s := Sample.stats.2 in
  let panel :=
    (Panel.StatsPanel Sample.env "GPU" "#ff0" "#220" (of_Z 80) (of_Z 48)
       false (Overlay.Scope.document s)).1 in
  let s0 :=
    Overlay.with_document
      (Panel.StatsPanel Sample.env "GPU" "#ff0" "#220" (of_Z 80) (of_Z 48)
         false (Overlay.Scope.document s)).2 s in
  let s1 := Overlay.showPanel 0 s0 in
  let r := Overlay.addPanel panel s1 in
  ~ contains (Overlay.Scope.document s1) (Panel.dom panel)
      (Overlay.Scope.container s1) /\
  r.1 = panel /\
  (forall n, display_of (Overlay.Scope.document r.2) n =
             display_of (Overlay.Scope.document s1) n) /\
  Overlay.panels r.2 = (Overlay.panels s1 ++ [Panel.dom panel])%list /\
  Overlay.visible_panels r.2 = [1; Panel.dom panel] /\
  (forall k, Overlay.visible_panels (Overlay.showPanel k r.2) =
             option_list (Overlay.panel_at r.2 k)).
Proof.
  intros s panel s0.
  apply (addPanel_leaves_display_alone s0 panel 0 1).
  - unfold Overlay.well_formed. apply (bool_decide_unpack _).
    vm_compute. exact I.
  - apply (bool_decide_unpack _). vm_compute. exact I.
  - apply (bool_decide_unpack _). vm_compute. exact I.
  - intros H. apply contains_leaf in H; [|vm_compute; reflexivity].
    vm_compute in H. discriminate H.
  - apply (bool_decide_unpack _). vm_compute. exact I.
  - vm_compute. reflexivity.
  - vm_compute. reflexivity.
Defined.

(* ================================================================= *)
(** ** Integers as doubles *)

Section IntegerDoubles.

Lemma Zpos_iter_xO p k : Zpos (Pos.iter xO p k) = (Zpos p * 2 ^ Zpos k)%Z.
Proof.
  induction k as [|k IH] using Pos.peano_ind.
  - simpl. lia.
  - rewrite Pos.iter_succ, Pos2Z.inj_xO, IH, Pos2Z.inj_succ.
    rewrite Z.pow_succ_r by lia. lia.
Qed.

(** An integer of at most 53 bits is represented exactly: the mantissa is
    the integer shifted left until it has 53 bits. *)
Lemma binary_round_integer (sgn : bool) (p : positive) :
  (Zpos (digits2_pos p) <= 53)%Z ->
  exists m e,
    binary_round 53 1024 sgn p 0 = S754_finite sgn m e /\
    (e <= 0)%Z /\ Zpos m = (Zpos p * 2 ^ (- e))%Z.
Proof.
  intros Hd. unfold binary_round, shl_align, fexp, SpecFloat.emin.
  rewrite Z.max_l by lia.
  destruct (Zpos (digits2_pos p) + 0 - 53 - 0)%Z as [|k|k] eqn:E; try lia.
  - exists p, 0%Z. rewrite (binary_round_aux_canonical sgn p 0).
    + split; [reflexivity|]. split; [lia|]. simpl. lia.
    + unfold canonical_mantissa, fexp, SpecFloat.emin.
      apply Z.eqb_eq. lia.
    + lia.
  - exists (Pos.iter xO p k), (Zpos (digits2_pos p) + 0 - 53)%Z.
    rewrite (binary_round_aux_canonical sgn).
    + split; [reflexivity|]. split; [lia|].
      rewrite Zpos_iter_xO. f_equal. f_equal. lia.
    + unfold canonical_mantissa, fexp, SpecFloat.emin.
      rewrite digits2_pos_iter_xO. apply Z.eqb_eq. lia.
    + lia.
Qed.

Lemma digits2_pos_le_53 p : (Zpos p < 2 ^ 53)%Z -> (Zpos (digits2_pos p) <= 53)%Z.
Proof.
  intros Hp. pose proof (digits2_pos_bounds p) as [Hlo _].
  destruct (Z.le_gt_cases (Zpos (digits2_pos p)) 53) as [|Hbig];
    [assumption|exfalso].
  assert ((2 ^ 53 <= 2 ^ (Zpos (digits2_pos p) - 1))%Z) as Hpow
    by (apply Z.pow_le_mono_r; lia).
  lia.
Qed.

Lemma to_integer_shifted (sgn : bool) (p m : positive) (e : Z) :
  (e <= 0)%Z -> Zpos m = (Zpos p * 2 ^ (- e))%Z ->
  to_integer (S754_finite sgn m e) = Some (cond_Zopp sgn (Zpos p)).
Proof.
  intros He Hm. unfold to_integer.
  destruct (Z.leb_spec 0 e) as [He0|He0].
  - assert (e = 0%Z) as -> by lia. simpl in Hm.
    rewrite Z.pow_0_r, Z.mul_1_r. do 2 f_equal. lia.
  - assert (0 < 2 ^ (- e))%Z as HK by (apply Z.pow_pos_nonneg; lia).
    rewrite Hm, Z.mod_mul, Z.eqb_refl, Z.div_mul by lia. reflexivity.
Qed.

(** Reading back an integer literal below 2^53 gives the integer. *)
Lemma to_integer_of_Z (n : Z) :
  (Z.abs n < 2 ^ 53)%Z -> to_integer (of_Z n) = Some n.
Proof.
  intros Hn. destruct n as [|p|p]; [reflexivity| |].
  - destruct (binary_round_integer false p) as (m & e & Hr & He & Hm).
    { apply digits2_pos_le_53. exact Hn. }
    unfold of_Z, binary_normalize, prec, emax. rewrite Hr.
    now apply (to_integer_shifted false p).
  - destruct (binary_round_integer true p) as (m & e & Hr & He & Hm).
    { apply digits2_pos_le_53. exact Hn. }
    unfold of_Z, binary_normalize, prec, emax. rewrite Hr.
    now apply (to_integer_shifted true p).
Qed.

Lemma isFinite_of_Z (n : Z) :
  (Z.abs n < 2 ^ 53)%Z -> isFinite (of_Z n) = true.
Proof.
  intros Hn. destruct n as [|p|p]; [reflexivity| |].
  - destruct (binary_round_integer false p) as (m & e & Hr & _).
    { apply digits2_pos_le_53. exact Hn. }
    unfold of_Z, binary_normalize, prec, emax. now rewrite Hr.
  - destruct (binary_round_integer true p) as (m & e & Hr & _).
    { apply digits2_pos_le_53. exact Hn. }
    unfold of_Z, binary_normalize, prec, emax. now rewrite Hr.
Qed.

(** The integer [Math.round] computes for a double with a fractional
    exponent is no larger in magnitude than the mantissa. *)
Lemma nearest_integer_bound s m e :
  (e < 0)%Z -> (Z.abs (nearest_integer s m e) <= Zpos m)%Z.
Proof.
  intros He. unfold nearest_integer.
  destruct (Z.leb_spec 0 e) as [|_]; [lia|].
  assert (HK : (2 <= 2 ^ (- e))%Z).
  { change 2%Z with (2 ^ 1)%Z at 1. apply Z.pow_le_mono_r; lia. }
  remember (2 ^ (- e))%Z as K eqn:EK. clear EK.
  destruct s; simpl cond_Zopp.
  - assert (- Zpos m <= (2 * - Zpos m + K) / (2 * K) <= 0)%Z; [|lia].
    split.
    + apply Z.div_le_lower_bound; nia.
    + apply Z.lt_succ_r, Z.div_lt_upper_bound; lia.
  - assert (0 <= (2 * Zpos m + K) / (2 * K) <= Zpos m)%Z; [|lia].
    split.
    + apply Z.div_pos; lia.
    + apply Z.lt_succ_r, Z.div_lt_upper_bound; nia.
Qed.

(** [Math.round] of a genuine double with a fractional exponent is the
    double of [floor (x + 1/2)], an integer below 2^53. *)
Lemma Math_round_integer s m e :
  valid (S754_finite s m e) = true -> (e < 0)%Z ->
  to_integer (Math_round (S754_finite s m e)) = Some (nearest_integer s m e) /\
  isFinite (Math_round (S754_finite s m e)) = true /\
  (Z.abs (nearest_integer s m e) < 2 ^ 53)%Z.
Proof.
  intros Hv He.
  apply valid_mantissa in Hv as [Hm _].
  pose proof (nearest_integer_bound s m e He) as Hn.
  assert (Hlt : (Z.abs (nearest_integer s m e) < 2 ^ 53)%Z) by lia.
  unfold Math_round. destruct (Z.leb_spec 0 e) as [|_]; [lia|].
  destruct (nearest_integer s m e) as [|p|p] eqn:E.
  - repeat split; assumption.
  - split; [now apply to_integer_of_Z|]. split; [now apply isFinite_of_Z|assumption].
  - split; [now apply to_integer_of_Z|]. split; [now apply isFinite_of_Z|assumption].
Qed.

(** The double of a positive integer below 2^53, in canonical form. *)
Lemma binary_round_integer_canonical (sgn : bool) (p : positive) :
  (Zpos (digits2_pos p) <= 53)%Z ->
  exists m,
    binary_round 53 1024 sgn p 0 =
      S754_finite sgn m (Zpos (digits2_pos p) - 53) /\
    Zpos m = (Zpos p * 2 ^ (53 - Zpos (digits2_pos p)))%Z.
Proof.
  intros Hd. unfold binary_round, shl_align, fexp, SpecFloat.emin.
  rewrite Z.max_l by lia.
  destruct (Zpos (digits2_pos p) + 0 - 53 - 0)%Z as [|k|k] eqn:E; try lia.
  - exists p. rewrite (binary_round_aux_canonical sgn p 0).
    + replace (Zpos (digits2_pos p) - 53)%Z with 0%Z by lia.
      split; [reflexivity|].
      replace (53 - Zpos (digits2_pos p))%Z with 0%Z by lia. simpl. lia.
    + unfold canonical_mantissa, fexp, SpecFloat.emin.
      apply Z.eqb_eq. lia.
    + lia.
  - exists (Pos.iter xO p k).
    rewrite (binary_round_aux_canonical sgn).
    + split; [f_equal; lia|].
      rewrite Zpos_iter_xO. f_equal. f_equal. lia.
    + unfold canonical_mantissa, fexp, SpecFloat.emin.
      rewrite digits2_pos_iter_xO. apply Z.eqb_eq. lia.
    + lia.
Qed.

(** A genuine double that is an integer, written with a negative exponent,
    is the double of that integer. *)
Lemma of_Z_integral (s : bool) (m : positive) (e : Z) (n : positive) :
  valid (S754_finite s m e) = true -> (e < 0)%Z ->
  Zpos m = (Zpos n * 2 ^ (- e))%Z ->
  binary_round 53 1024 s n 0 = S754_finite s m e.
Proof.
  intros Hv He Hm.
  pose proof (valid_mantissa s m e Hv) as [Hhi _].
  unfold valid, valid_binary, bounded, canonical_mantissa, fexp,
    SpecFloat.emin, prec, emax in Hv.
  apply andb_true_iff in Hv as [Hc _]. apply Z.eqb_eq in Hc.
  assert (Ek : (- e)%Z = Zpos (Z.to_pos (- e))) by (rewrite Z2Pos.id; lia).
  assert (Em : m = Pos.iter xO n (Z.to_pos (- e))).
  { apply Pos2Z.inj. rewrite Zpos_iter_xO, <- Ek. exact Hm. }
  assert (Hd : Zpos (digits2_pos m) =
               (Zpos (digits2_pos n) + - e)%Z).
  { rewrite Em at 1. rewrite digits2_pos_iter_xO, Pos2Z.inj_add, <- Ek.
    reflexivity. }
  assert (H53 : Zpos (digits2_pos m) = 53%Z).
  { change (3 - 1024 - 53)%Z with (-1074)%Z in Hc.
    destruct (Z.max_spec (Zpos (digits2_pos m) + e - 53) (-1074))
      as [[_ Hx]|[_ Hx]]; rewrite Hx in Hc; [|lia].
    exfalso. subst e.
    remember (2 ^ 53)%Z as B eqn:HB.
    assert (HBlt : (B < 2 ^ 1074)%Z)
      by (subst B; apply Z.pow_lt_mono_r; lia).
    change (- -1074)%Z with 1074%Z in Hm.
    remember (2 ^ 1074)%Z as K eqn:HK. clear HK HB Ek Em Hd Hx.
    assert (K <= Zpos n * K)%Z by nia. lia. }
  destruct (binary_round_integer_canonical s n) as (m' & Hr & Hm'); [lia|].
  rewrite Hr. f_equal.
  - apply Pos2Z.inj. rewrite Hm', Hm. f_equal. f_equal. lia.
  - lia.
Qed.

(** Rounding to the nearest integer moves no integer. *)
Lemma nearest_integer_integral (s : bool) (n : Z) (e : Z) (m : positive) :
  (e < 0)%Z -> Zpos m = (n * 2 ^ (- e))%Z ->
  nearest_integer s m e = cond_Zopp s n.
Proof.
  intros He Hm. unfold nearest_integer.
  destruct (Z.leb_spec 0 e) as [|_]; [lia|].
  assert (HK : (0 < 2 ^ (- e))%Z) by (apply Z.pow_pos_nonneg; lia).
  rewrite Hm. remember (2 ^ (- e))%Z as K eqn:EK. clear EK Hm.
  destruct s; simpl cond_Zopp.
  - replace (2 * - (n * K) + K)%Z with (K + (- n) * (2 * K))%Z by lia.
    rewrite Z.div_add by lia. rewrite Z.div_small by lia. lia.
  - replace (2 * (n * K) + K)%Z with (K + n * (2 * K))%Z by lia.
    rewrite Z.div_add by lia. rewrite Z.div_small by lia. lia.
Qed.

(** [Math.round] returns a genuine double that is an integer as it is. *)
Lemma Math_round_integral_id (x : num) :
  valid x = true -> is_Some (to_integer x) -> Math_round x = x.
Proof.
  intros Hv [n Hn]. destruct x as [s|s| |s m e]; try reflexivity.
  unfold Math_round. unfold to_integer in Hn.
  destruct (Z.leb_spec 0 e) as [|He]; [reflexivity|].
  destruct (Z.eqb_spec (Zpos m mod 2 ^ (- e)) 0) as [Hmod|]; [|discriminate].
  assert (HK : (0 < 2 ^ (- e))%Z) by (apply Z.pow_pos_nonneg; lia).
  assert (Hm : Zpos m = (Zpos m / 2 ^ (- e) * 2 ^ (- e))%Z).
  { pose proof (Z.div_mod (Zpos m) (2 ^ (- e)) ltac:(lia)) as Hdm.
    rewrite Hmod in Hdm. lia. }
  assert (Hq : (0 < Zpos m / 2 ^ (- e))%Z).
  { remember (Zpos m / 2 ^ (- e))%Z as q. remember (2 ^ (- e))%Z as K.
    assert (0 < q * K)%Z by lia. nia. }
  destruct (Zpos m / 2 ^ (- e))%Z as [|q|q] eqn:Eq; try lia.
  rewrite (nearest_integer_integral s (Zpos q) e m He Hm).
  pose proof (of_Z_integral s m e q Hv He Hm) as Hr.
  destruct s; simpl cond_Zopp; unfold of_Z, binary_normalize, prec, emax;
    exact Hr.
Qed.

End IntegerDoubles.

(* ================================================================= *)
(** ** Two exact operations: [x / x] and [1 * x] *)

Section ExactArithmetic.

Lemma Z_div_eucl_mul (a b : Z) :
  (0 < b)%Z -> Z.div_eucl (a * b) b = (a, 0%Z).
Proof.
  intros Hb.
  pose proof (Z.div_mul a b ltac:(lia)) as Hq.
  pose proof (Z.mod_mul a b ltac:(lia)) as Hr.
  unfold Z.div, Z.modulo in Hq, Hr.
  destruct (Z.div_eucl (a * b) b) as [q r]. now subst.
Qed.

(** A finite non-zero double divided by itself is exactly 1. *)
Lemma div_self s m e :
  div (S754_finite s m e) (S754_finite s m e) = of_Z 1.
Proof.
  unfold div, SFdiv, SFdiv_core_binary, prec, emax. cbn [Zdigits2].
  replace (Zpos (digits2_pos m) + e - (Zpos (digits2_pos m) + e))%Z
    with 0%Z by lia.
  replace (e - e)%Z with 0%Z by lia.
  change (Z.min (fexp 53 1024 0) 0) with (-53)%Z.
  change (0 - -53)%Z with 53%Z. cbv iota beta.
  rewrite Z.shiftl_mul_pow2 by lia.
  assert (E : IntDef.Z.div_eucl (Zpos m * 2 ^ 53) (Zpos m) = ((2 ^ 53)%Z, 0%Z)).
  { rewrite Z.mul_comm. apply Z_div_eucl_mul. lia. }
  rewrite E.
  replace (new_location (Zpos m) 0) with loc_Exact.
  - destruct s; reflexivity.
  - unfold new_location, new_location_even, new_location_odd.
    destruct (Z.even (Zpos m)); reflexivity.
Qed.

Lemma shr_52 (m : positive) :
  SpecFloat.iter_pos shr_1 52
    {| shr_m := Zpos (Pos.iter xO m 52); shr_r := false; shr_s := false |} =
  {| shr_m := Zpos m; shr_r := false; shr_s := false |}.
Proof. reflexivity. Qed.

(** A canonical mantissa shifted left by 52 bits rounds back to itself. *)
Lemma binary_round_aux_shifted s m e :
  canonical_mantissa 53 1024 m e = true -> (e <= 971)%Z ->
  binary_round_aux 53 1024 s (Zpos (Pos.iter xO m 52)) (e - 52) loc_Exact =
  S754_finite s m e.
Proof.
  intros Hc He. pose proof Hc as Hc'. apply Z.eqb_eq in Hc'.
  unfold binary_round_aux at 1. unfold shr_fexp at 1. cbn [Zdigits2].
  rewrite digits2_pos_iter_xO.
  replace (Zpos (digits2_pos m + 52) + (e - 52))%Z
    with (Zpos (digits2_pos m) + e)%Z by lia.
  rewrite Hc'. replace (e - (e - 52))%Z with 52%Z by lia.
  unfold shr. cbn [shr_record_of_loc]. rewrite shr_52.
  cbn [shr_m loc_of_shr_record round_nearest_even].
  replace (e - 52 + 52)%Z with e by lia.
  unfold shr_fexp. cbn [Zdigits2]. rewrite Hc', Z.sub_diag. simpl.
  change (1024 - 53)%Z with 971%Z.
  apply Z.leb_le in He. now rewrite He.
Qed.

(** Multiplying a genuine double by 1 changes nothing. *)
Lemma mul_1_l (x : num) : valid x = true -> mul (of_Z 1) x = x.
Proof.
  destruct x as [s|s| |s m e]; intros Hv;
    try (destruct s; reflexivity); try reflexivity.
  unfold valid, valid_binary, bounded, prec, emax in Hv.
  apply andb_true_iff in Hv as [Hc He]. apply Z.leb_le in He.
  change (of_Z 1) with (S754_finite false 4503599627370496 (-52)).
  unfold mul, SFmul, prec, emax.
  change (Pos.mul 4503599627370496 m) with (Pos.iter xO m 52).
  replace (-52 + e)%Z with (e - 52)%Z by lia.
  cbn [xorb]. apply binary_round_aux_shifted; [assumption|].
  change (1024 - 53)%Z with 971%Z in He. exact He.
Qed.

End ExactArithmetic.

(* ================================================================= *)
(** ** What a sequence of updates keeps *)

Section UpdateSequences.

Variable env : Env.

Implicit Types (p : Panel.t) (calls : list (num * num)).

(** What [update] leaves as it is stays so after any number of calls. *)
Lemma updates_constants calls p :
  let q := Panel.updates env calls p in
  (Panel.name q, Panel.fg q, Panel.bg q, Panel.showMaximum q) =
  (Panel.name p, Panel.fg p, Panel.bg p, Panel.showMaximum p) /\
  (Panel.width q, Panel.height q, Panel.PR q, Panel.WIDTH q, Panel.HEIGHT q) =
  (Panel.width p, Panel.height p, Panel.PR p, Panel.WIDTH p, Panel.HEIGHT p) /\
  (Panel.TEXT_X q, Panel.TEXT_Y q, Panel.GRAPH_X q, Panel.GRAPH_Y q,
   Panel.GRAPH_WIDTH q, Panel.GRAPH_HEIGHT q) =
  (Panel.TEXT_X p, Panel.TEXT_Y p, Panel.GRAPH_X p, Panel.GRAPH_Y p,
   Panel.GRAPH_WIDTH p, Panel.GRAPH_HEIGHT p) /\
  (Panel.canvas q, Panel.canvas_width q, Panel.canvas_height q) =
  (Panel.canvas p, Panel.canvas_width p, Panel.canvas_height p) /\
  Panel.evaluateStatsColor q = Panel.evaluateStatsColor p.
Proof.
  induction calls as [|c calls IH] using rev_ind.
  - repeat split.
  - rewrite updates_snoc. cbv zeta in IH.
    destruct IH as (I1 & I2 & I3 & I4 & I5).
    destruct (update_constants env c.1 c.2 (Panel.updates env calls p))
      as (U1 & U2 & U3 & U4 & U5).
    cbv zeta. rewrite U1, U2, U3, U4, U5. now split_and!.
Qed.

(** A canvas keeps its pixels: a panel that can be drawn can still be drawn
    after any number of calls, and one that cannot never can. *)
Lemma updates_usable calls p :
  Panel.usable (Panel.updates env calls p) = Panel.usable p.
Proof.
  destruct (updates_constants calls p) as (_ & _ & _ & C & _).
  injection C as _ C1 C2. unfold Panel.usable. now rewrite C1, C2.
Qed.

Lemma updates_throws calls p :
  Panel.throws (Panel.updates env calls p) = Panel.throws p.
Proof.
  destruct (updates_constants calls p) as (_ & C2 & C3 & C4 & _).
  injection C2 as _ _ E _ _. injection C3 as _ _ F3 F4 F5 F6.
  injection C4 as _ G2 G3. unfold Panel.throws.
  now rewrite E, F3, F4, F5, F6, G2, G3.
Qed.

(** The drawing state a returning [update] leaves behind, and the five
    calls it adds. *)
Lemma update_context value maxValue p :
  Panel.usable p = true ->
  let q := after (Panel.update env value maxValue p) in
  fillStyle (Panel.context q) = Panel.bg p /\
  globalAlpha (Panel.context q) = nine_tenths /\
  font (Panel.context q) = font (Panel.context p) /\
  textBaseline (Panel.context q) = textBaseline (Panel.context p) /\
  length (calls (Panel.context q)) = length (calls (Panel.context p)) + 5.
Proof.
  intros Hu. unfold Panel.usable in Hu.
  rewrite <- negb_orb, negb_true_iff in Hu.
  unfold Panel.update, drawImage. rewrite Hu, andb_false_r.
  destruct (Panel.showMaximum p); simpl;
    rewrite !length_app; simpl; repeat split; lia.
Qed.

(** The drawing state a throwing [update] leaves behind, and the two calls
    it adds: the fill colour is the one the policy returned and the opacity
    is 1. *)
Lemma update_context_thrown value maxValue p :
  Panel.throws p = true ->
  let q := after (Panel.update env value maxValue p) in
  fillStyle (Panel.context q) = Panel.evaluateStatsColor p value maxValue /\
  globalAlpha (Panel.context q) = of_Z 1 /\
  length (calls (Panel.context q)) = length (calls (Panel.context p)) + 2.
Proof.
  intros Hu. unfold Panel.throws in Hu.
  unfold Panel.update, drawImage. rewrite Hu.
  destruct (Panel.showMaximum p); simpl;
    rewrite !length_app; simpl; repeat split; lia.
Qed.

Lemma updates_context calls p :
  Panel.usable p = true ->
  fillStyle (Panel.context p) = Panel.bg p ->
  globalAlpha (Panel.context p) = nine_tenths ->
  let q := Panel.updates env calls p in
  fillStyle (Panel.context q) = Panel.bg p /\
  globalAlpha (Panel.context q) = nine_tenths /\
  font (Panel.context q) = font (Panel.context p) /\
  textBaseline (Panel.context q) = textBaseline (Panel.context p) /\
  length (Canvas.calls (Panel.context q)) =
    length (Canvas.calls (Panel.context p)) + 5 * length calls.
Proof.
  intros Hu Hf Ha. induction calls as [|c calls IH] using rev_ind.
  - simpl. repeat split; try assumption. lia.
  - cbv zeta in *. rewrite updates_snoc.
    destruct IH as (I1 & I2 & I3 & I4 & I5).
    assert (Hu' : Panel.usable (Panel.updates env calls p) = true)
      by now rewrite updates_usable.
    destruct (update_context c.1 c.2 (Panel.updates env calls p) Hu')
      as (U1 & U2 & U3 & U4 & U5).
    destruct (updates_constants calls p) as (C1 & _).
    assert (Hbg : Panel.bg (Panel.updates env calls p) = Panel.bg p)
      by congruence.
    rewrite U1, U2, U3, U4, U5, Hbg, I3, I4, I5, length_app. simpl.
    repeat split. lia.
Qed.

End UpdateSequences.

(* ================================================================= *)
(** ** The size of the canvas *)

Section CanvasSize.

(** The integer part of the double of an integer is that integer. *)
Lemma integer_part_of_Z (n : Z) :
  (Z.abs n < 2 ^ 53)%Z -> integer_part (of_Z n) = n.
Proof.
  intros Hn.
  destruct n as [|p|p]; [reflexivity| |].
  - destruct (binary_round_integer false p) as (m & e & Hr & He & Hm).
    { apply digits2_pos_le_53. exact Hn. }
    unfold of_Z, binary_normalize, prec, emax. rewrite Hr.
    unfold integer_part, cond_Zopp.
    destruct (Z.leb_spec 0 e) as [He0|He0].
    + assert (e = 0%Z) as -> by lia. simpl in Hm. simpl. lia.
    + rewrite Hm. apply Z.div_mul.
      assert (0 < 2 ^ (- e))%Z by (apply Z.pow_pos_nonneg; lia). lia.
  - destruct (binary_round_integer true p) as (m & e & Hr & He & Hm).
    { apply digits2_pos_le_53. exact Hn. }
    unfold of_Z, binary_normalize, prec, emax. rewrite Hr.
    unfold integer_part, cond_Zopp.
    destruct (Z.leb_spec 0 e) as [He0|He0].
    + assert (e = 0%Z) as -> by lia. simpl in Hm. simpl. lia.
    + rewrite Hm, Z.div_mul; [reflexivity|].
      assert (0 < 2 ^ (- e))%Z by (apply Z.pow_pos_nonneg; lia). lia.
Qed.

(** A canvas dimension set to an integer below 2^31 reads back as set. *)
Lemma reflect_dimension_of_Z (default n : Z) :
  (0 <= n < 2147483648)%Z -> reflect_dimension default (of_Z n) = n.
Proof.
  intros Hn. unfold reflect_dimension, to_unsigned_long.
  rewrite integer_part_of_Z.
  - change (2 ^ 32)%Z with 4294967296%Z.
    rewrite Z.mod_small by lia.
    destruct (Z.leb_spec n 2147483647); [reflexivity|lia].
  - change (2 ^ 53)%Z with 9007199254740992%Z. lia.
Qed.

(** A canvas dimension set to a zero or to [NaN] reads back as 0. *)
Lemma reflect_dimension_mul_zero (default : Z) (x : num) (sgn : bool) :
  reflect_dimension default (x * S754_zero sgn)%num = 0%Z.
Proof. destruct x as [[]|[]| |[] m e], sgn; reflexivity. Qed.

(** A finite product with a zero is a zero. *)
Lemma mul_zero_finite (x : num) (sgn : bool) :
  isFinite (x * S754_zero sgn)%num = true ->
  exists s, (x * S754_zero sgn)%num = S754_zero s.
Proof.
  destruct x as [s|s| |s m e]; try discriminate; intros _; eexists;
    reflexivity.
Qed.

End CanvasSize.

(** X1.  The canvas of a panel keeps the size it was given.  When
    [width * PR] and [height * PR] are the integers [w] and [h], both
    positive and below 2^31, the canvas made by [StatsPanel] is [w] by [h]
    pixels, and it still is after any sequence of updates; so the panel can
    always be drawn, and no update throws. *)
Theorem integral_canvas_keeps_its_size
    env name fg bg width height showMaximum (d : Document)
    (calls : list (num * num)) (w h : Z) :
  (width * Panel.pixel_ratio env)%num = of_Z w ->
  (0 < w < 2147483648)%Z ->
  (height * Panel.pixel_ratio env)%num = of_Z h ->
  (0 < h < 2147483648)%Z ->
  let p := Panel.updates env calls
             (Panel.StatsPanel env name fg bg width height showMaximum d).1 in
  Panel.canvas p = fresh d /\
  (Panel.canvas_width p, Panel.canvas_height p) = (w, h) /\
  Panel.usable p = true /\
  forall value maxValue,
    thrown (Panel.update env value maxValue p) = None.
Proof.
  intros Hw Hwr Hh Hhr p.
  destruct (updates_constants env calls
              (Panel.StatsPanel env name fg bg width height showMaximum d).1)
    as (_ & _ & _ & C4 & _).
  fold p in C4. injection C4 as G1 G2 G3.
  assert (Ew : Panel.canvas_width p = w).
  { rewrite G2. cbn [Panel.StatsPanel fst Panel.canvas_width].
    rewrite Hw. apply reflect_dimension_of_Z. lia. }
  assert (Eh : Panel.canvas_height p = h).
  { rewrite G3. cbn [Panel.StatsPanel fst Panel.canvas_height].
    rewrite Hh. apply reflect_dimension_of_Z. lia. }
  assert (Hu : Panel.usable p = true).
  { unfold Panel.usable. rewrite Ew, Eh.
    destruct (Z.eqb_spec w 0), (Z.eqb_spec h 0); try lia; reflexivity. }
  split_and!.
  - rewrite G1. reflexivity.
  - now rewrite Ew, Eh.
  - exact Hu.
  - intros value maxValue.
    now rewrite update_thrown, (usable_returns p Hu).
Qed.

(** X1 on the FPS panel at device pixel ratio 1, 80 by 48, after
    [update(10, 60)] and [update(50, 60)]. *)
Lemma integral_canvas_keeps_its_size_witness :
  let p := Panel.updates Sample.env [(of_Z 10, of_Z 60); (of_Z 50, of_Z 60)]
             (Panel.StatsPanel Sample.env "FPS" "#0ff" "#002" (of_Z 80)
                (of_Z 48) false empty_document).1 in
  Panel.canvas p = fresh empty_document /\
  (Panel.canvas_width p, Panel.canvas_height p) = (80, 48)%Z /\
  Panel.usable p = true /\
  forall value maxValue,
    thrown (Panel.update Sample.env value maxValue p) = None.
Proof.
  apply (integral_canvas_keeps_its_size Sample.env "FPS" "#0ff" "#002"
           (of_Z 80) (of_Z 48) false empty_document
           [(of_Z 10, of_Z 60); (of_Z 50, of_Z 60)] 80 48).
  - reflexivity.
  - lia.
  - reflexivity.
  - lia.
Defined.

(** X2.  Every update that returns leaves the context as construction left
    it: on a panel whose canvas has a non-zero width and height, after any
    sequence of updates the fill colour is [bg], the opacity 0.9, the font
    the panel's and the baseline ['top'].  Each of these updates returns
    and makes five drawing calls, so after [n] updates the context has
    received [4 + 5 n] calls. *)
Theorem updates_leave_context_ready
    env name fg bg width height showMaximum (d : Document)
    (calls : list (num * num)) :
  Panel.usable
    (Panel.StatsPanel env name fg bg width height showMaximum d).1 = true ->
  let p0 := (Panel.StatsPanel env name fg bg width height showMaximum d).1 in
  let p := Panel.updates env calls p0 in
  fillStyle (Panel.context p) = bg /\
  globalAlpha (Panel.context p) = nine_tenths /\
  font (Panel.context p) = font (Panel.context p0) /\
  textBaseline (Panel.context p) = "top" /\
  length (Canvas.calls (Panel.context p)) = 4 + 5 * length calls /\
  forall value maxValue,
    thrown (Panel.update env value maxValue p) = None.
Proof.
  intros Hu p0 p.
  destruct (updates_context env calls p0 Hu eq_refl eq_refl)
    as (H1 & H2 & H3 & H4 & H5).
  fold p in H1, H2, H3, H4, H5. split_and!; try assumption.
  intros value maxValue. rewrite update_thrown, usable_returns; [easy|].
  unfold p, p0. now rewrite updates_usable.
Qed.

(** X2 on the FPS panel at device pixel ratio 1, after [update(10, 60)] and
    [update(50, 60)]: 14 calls. *)
Lemma updates_leave_context_ready_witness :
  let p0 := (Panel.StatsPanel Sample.env "FPS" "#0ff" "#002" (of_Z 80)
               (of_Z 48) false empty_document).1 in
  let p := Panel.updates Sample.env
             [(of_Z 10, of_Z 60); (of_Z 50, of_Z 60)] p0 in
  fillStyle (Panel.context p) = "#002" /\
  globalAlpha (Panel.context p) = nine_tenths /\
  font (Panel.context p) = font (Panel.context p0) /\
  textBaseline (Panel.context p) = "top" /\
  length (Canvas.calls (Panel.context p)) = 14 /\
  forall value maxValue,
    thrown (Panel.update Sample.env value maxValue p) = None.
Proof.
  apply (updates_leave_context_ready Sample.env "FPS" "#0ff" "#002"
           (of_Z 80) (of_Z 48) false empty_document
           [(of_Z 10, of_Z 60); (of_Z 50, of_Z 60)]).
  reflexivity.
Defined.

(** X3.  At a scale of zero no graph is ever drawn.  When the device pixel
    ratio rounds to a zero (a ratio below one half) and the graph region
    of the panel is finite, the canvas made by [StatsPanel] is 0 by 0 pixels
    and every [update], after any sequence of updates, throws
    [InvalidStateError] at [drawImage]: it has taken the value into the
    statistics, erased the header and written the text, and it leaves the
    fill colour [fg] and the opacity 1 instead of [bg] and 0.9. *)
Theorem update_throws_at_scale_zero
    env name fg bg width height showMaximum (d : Document)
    (calls : list (num * num)) (value maxValue : num) (sgn : bool) :
  Panel.pixel_ratio env = S754_zero sgn ->
  isFinite
    (Panel.GRAPH_WIDTH
       (Panel.StatsPanel env name fg bg width height showMaximum d).1)
  = true ->
  isFinite
    (Panel.GRAPH_HEIGHT
       (Panel.StatsPanel env name fg bg width height showMaximum d).1)
  = true ->
  let p := Panel.updates env calls
             (Panel.StatsPanel env name fg bg width height showMaximum d).1 in
  let o := Panel.update env value maxValue p in
  (Panel.canvas_width p, Panel.canvas_height p) = (0, 0)%Z /\
  thrown o = Some "InvalidStateError" /\
  (Panel.min (after o), Panel.max (after o)) =
    (Math_min [Panel.min p; value], Math_max [Panel.max p; value]) /\
  (exists text,
     Panel.drawn p (after o) =
     [ FillRect bg (of_Z 1) (of_Z 0) (of_Z 0) (Panel.WIDTH p) (Panel.GRAPH_Y p);
       FillText fg (of_Z 1) (font (Panel.context p))
         (textBaseline (Panel.context p)) text
         (Panel.TEXT_X p) (Panel.TEXT_Y p) ]) /\
  fillStyle (Panel.context (after o)) = fg /\
  globalAlpha (Panel.context (after o)) = of_Z 1.
Proof.
  intros Hz Hgw Hgh p o.
  destruct (updates_constants env calls
              (Panel.StatsPanel env name fg bg width height showMaximum d).1)
    as (C1 & _ & _ & C4 & C5).
  fold p in C1, C4, C5.
  injection C1 as _ _ E3 _. injection C4 as _ G2 G3.
  assert (Ew : Panel.canvas_width p = 0%Z).
  { rewrite G2. cbn [Panel.StatsPanel fst Panel.canvas_width].
    rewrite Hz. apply reflect_dimension_mul_zero. }
  assert (Eh : Panel.canvas_height p = 0%Z).
  { rewrite G3. cbn [Panel.StatsPanel fst Panel.canvas_height].
    rewrite Hz. apply reflect_dimension_mul_zero. }
  assert (Ht : Panel.throws p = true).
  { unfold p. rewrite updates_throws. unfold Panel.throws.
    revert Hgw Hgh.
    cbv beta iota zeta delta
      [Panel.StatsPanel createElement fst Panel.GRAPH_X Panel.GRAPH_Y
       Panel.GRAPH_WIDTH Panel.GRAPH_HEIGHT Panel.PR Panel.canvas_width
       Panel.canvas_height].
    rewrite Hz, reflect_dimension_mul_zero. intros Hgw Hgh.
    destruct (mul_zero_finite _ _ Hgw) as [sw Ew'].
    rewrite Ew'. cbn [forallb]. rewrite Hgh.
    destruct sw, sgn; reflexivity. }
  destruct (update_context_thrown env value maxValue p Ht) as (T1 & T2 & _).
  fold o in T1, T2.
  split_and!.
  - now rewrite Ew, Eh.
  - unfold o. now rewrite update_thrown, Ht.
  - unfold o. now rewrite update_min, update_max.
  - unfold o. rewrite update_drawn, Ht, C5, E3. eexists. reflexivity.
  - rewrite T1, C5. reflexivity.
  - exact T2.
Qed.

(** X3 at device pixel ratio 0.25, on the second update of the FPS
    panel. *)
Lemma update_throws_at_scale_zero_witness :
  let p := Panel.updates Sample.env_quarter [(of_Z 10, of_Z 60)]
             (Panel.StatsPanel Sample.env_quarter "FPS" "#0ff" "#002"
                (of_Z 80) (of_Z 48) false empty_document).1 in
  let o := Panel.update Sample.env_quarter (of_Z 50) (of_Z 60) p in
  (Panel.canvas_width p, Panel.canvas_height p) = (0, 0)%Z /\
  thrown o = Some "InvalidStateError" /\
  (Panel.min (after o), Panel.max (after o)) =
    (Math_min [Panel.min p; of_Z 50], Math_max [Panel.max p; of_Z 50]) /\
  (exists text,
     Panel.drawn p (after o) =
     [ FillRect "#002" (of_Z 1) (of_Z 0) (of_Z 0)
         (Panel.WIDTH p) (Panel.GRAPH_Y p);
       FillText "#0ff" (of_Z 1) (font (Panel.context p))
         (textBaseline (Panel.context p)) text
         (Panel.TEXT_X p) (Panel.TEXT_Y p) ]) /\
  fillStyle (Panel.context (after o)) = "#0ff" /\
  globalAlpha (Panel.context (after o)) = of_Z 1.
Proof.
  apply (update_throws_at_scale_zero Sample.env_quarter "FPS" "#0ff" "#002"
           (of_Z 80) (of_Z 48) false empty_document [(of_Z 10, of_Z 60)]
           (of_Z 50) (of_Z 60) false); reflexivity.
Defined.

(* ================================================================= *)
(** ** The statistics on particular series *)

Section Statistics.

Implicit Types a v : num.

Lemma Math_min_NaN_r a : Math_min [a; NaN] = NaN.
Proof. unfold Math_min. simpl. destruct (isNaN a); reflexivity. Qed.

Lemma Math_max_NaN_r a : Math_max [a; NaN] = NaN.
Proof. unfold Math_max. simpl. destruct (isNaN a); reflexivity. Qed.

Lemma Math_min_NaN_l v : Math_min [NaN; v] = NaN.
Proof. reflexivity. Qed.

Lemma Math_max_NaN_l v : Math_max [NaN; v] = NaN.
Proof. reflexivity. Qed.

Lemma updates_NaN env calls p :
  Panel.min p = NaN -> Panel.max p = NaN ->
  Panel.min (Panel.updates env calls p) = NaN /\
  Panel.max (Panel.updates env calls p) = NaN.
Proof.
  intros Hmin Hmax. induction calls as [|c calls [I1 I2]] using rev_ind.
  - now split.
  - rewrite updates_snoc, update_min, update_max, I1, I2. now split.
Qed.

Lemma Math_min_Infinity v : isNaN v = false -> Math_min [Infinity; v] = v.
Proof. destruct v as [[]|[]| |[] m e]; try discriminate; reflexivity. Qed.

Lemma Math_min_pair_attained a v :
  isNaN a = false -> isNaN v = false ->
  Math_min [a; v] = a \/ Math_min [a; v] = v.
Proof.
  intros Ha Hv. unfold Math_min. simpl. rewrite Ha, Hv.
  rewrite andb_false_r.
  assert (E : (if lt a Infinity then a else Infinity) = a).
  { destruct (lt a Infinity) eqn:L; [reflexivity|].
    symmetry. now apply lt_Infinity. }
  rewrite E. clear E.
  destruct (is_neg_zero v && is_pos_zero a) eqn:Z.
  - apply andb_true_iff in Z as [Zv Za].
    destruct v as [[]| | |]; try discriminate. now right.
  - destruct (lt v a); [now right|now left].
Qed.

Lemma Math_max_pair_attained a v :
  isNaN a = false -> isNaN v = false ->
  Math_max [a; v] = a \/ Math_max [a; v] = v.
Proof.
  intros Ha Hv. unfold Math_max. simpl. rewrite Ha, Hv.
  rewrite andb_false_r.
  assert (E : (if lt neg_Infinity a then a else neg_Infinity) = a).
  { destruct (lt neg_Infinity a) eqn:L; [reflexivity|].
    symmetry. now apply neg_Infinity_lt. }
  rewrite E. clear E.
  destruct (is_pos_zero v && is_neg_zero a) eqn:Z.
  - apply andb_true_iff in Z as [Zv Za].
    destruct v as [[]| | |]; try discriminate. now right.
  - destruct (lt a v); [now right|now left].
Qed.

(** With no positive argument the maximum of [0] and [v] is [0]. *)
Lemma Math_max_zero_nonpos v :
  le v (of_Z 0) = true -> Math_max [of_Z 0; v] = of_Z 0.
Proof. destruct v as [[]|[]| |[] m e]; try discriminate; reflexivity. Qed.

End Statistics.

(** X4.  [NaN] is absorbing.  After one [update(NaN, m)], on any panel, the
    tracked minimum and maximum are [NaN] and stay [NaN] through every later
    update, whatever its value; every later header reads
    ["<round(value)><name> (NaN-NaN)"]. *)
Theorem NaN_sample_is_never_forgotten
    (env : Env) (p : Panel.t) (m : num) (later : list (num * num))
    (value maxValue : num) :
  let p1 := after (Panel.update env NaN m p) in
  let p2 := Panel.updates env later p1 in
  let p3 := after (Panel.update env value maxValue p2) in
  let text :=
    template env (Math_round value) +:+ Panel.name p +:+ " (NaN-NaN)" in
  Panel.min p2 = NaN /\ Panel.max p2 = NaN /\
  Panel.min p3 = NaN /\ Panel.max p3 = NaN /\
  exists erase font baseline rest,
    Panel.drawn p2 p3 =
    erase ::
    FillText (Panel.evaluateStatsColor p value maxValue) (of_Z 1)
      font baseline
      (if Panel.showMaximum p
       then text +:+ "/" +:+ template env maxValue else text)
      (Panel.TEXT_X p) (Panel.TEXT_Y p) ::
    rest.
Proof.
  intros p1 p2 p3 text.
  assert (H1 : Panel.min p1 = NaN).
  { unfold p1. rewrite update_min. apply Math_min_NaN_r. }
  assert (H1' : Panel.max p1 = NaN).
  { unfold p1. rewrite update_max. apply Math_max_NaN_r. }
  destruct (updates_NaN env later p1 H1 H1') as [H2 H2']. fold p2 in H2, H2'.
  destruct (updates_constants env later p1) as (C1 & _ & C3 & _ & C5).
  destruct (update_constants env NaN m p) as (D1 & _ & D3 & _ & D5).
  fold p1 in D1, D3, D5. fold p2 in C1, C3, C5.
  rewrite D1 in C1. rewrite D3 in C3. rewrite D5 in C5.
  injection C1 as E1 E2 E3 E4. injection C3 as F1 F2 F3 F4 F5 F6.
  split_and!; try assumption.
  - unfold p3. now rewrite update_min, H2.
  - unfold p3. now rewrite update_max, H2'.
  - unfold p3. rewrite update_drawn, H2, H2', C5, E1, E4, F1, F2.
    eexists _, _, _, _. reflexivity.
Qed.

Section Attained.

Variable env : Env.

Lemma update_attained v m p seen :
  isNaN v = false -> Panel.tracks p seen ->
  attains p seen -> attains (after (Panel.update env v m p)) (seen ++ [v]).
Proof.
  intros Hv (Nmin & Nmax & _) [Hmin Hmax]. unfold attains.
  rewrite update_min, update_max. split.
  - right. destruct Hmin as [[-> ->]|Hmin].
    + rewrite Math_min_Infinity by assumption. now left.
    + destruct (Math_min_pair_attained _ v Nmin Hv) as [->| ->].
      * apply elem_of_app. now left.
      * apply elem_of_app. right. now left.
  - destruct (Math_max_pair_attained _ v Nmax Hv) as [->| ->].
    + apply elem_of_cons in Hmax as [->|Hmax]; [now left|].
      right. apply elem_of_app. now left.
    + right. apply elem_of_app. right. now left.
Qed.

Lemma updates_attained calls p seen :
  Forall (fun c => isNaN c.1 = false) calls ->
  Panel.tracks p seen -> attains p seen ->
  attains (Panel.updates env calls p) (seen ++ calls.*1).
Proof.
  induction calls as [|c calls IH] using rev_ind; intros Hc Ht Ha.
  - simpl. now rewrite app_nil_r.
  - apply Forall_app in Hc as [Hc Hlast].
    apply Forall_cons in Hlast as [Hlast _].
    rewrite updates_snoc, fmap_app, app_assoc. simpl.
    apply update_attained; [assumption| |now apply IH].
    now apply updates_tracks.
Qed.

End Attained.

(** X5.  The statistics are attained.  On a panel made by [StatsPanel],
    after a non-empty sequence of updates whose values are not [NaN], the
    tracked minimum is one of the values passed, and the tracked maximum is
    one of the values passed or the initial 0. *)
Theorem tracked_statistics_are_samples
    env name fg bg width height showMaximum (d : Document)
    (calls : list (num * num)) (value maxValue : num) :
  Forall (fun c => isNaN c.1 = false) calls ->
  isNaN value = false ->
  let p' := after (Panel.update env value maxValue
                     (Panel.updates env calls
                        (Panel.StatsPanel env name fg bg width height
                           showMaximum d).1)) in
  Panel.min p' ∈ (calls.*1 ++ [value])%list /\
  Panel.max p' ∈ (of_Z 0 :: calls.*1 ++ [value])%list.
Proof.
  intros Hc Hv p'.
  set (p0 := (Panel.StatsPanel env name fg bg width height showMaximum d).1).
  assert (Ht : Panel.tracks p0 []) by apply StatsPanel_tracks.
  assert (Ha : attains p0 []).
  { split; [left; now split|now left]. }
  pose proof (updates_tracks env calls p0 [] Hc Ht) as Ht'.
  pose proof (updates_attained env calls p0 [] Hc Ht Ha) as Ha'.
  simpl in Ht', Ha'.
  destruct (update_attained env value maxValue _ _ Hv Ht' Ha')
    as [[[E _]|Hmin] Hmax].
  - destruct calls; discriminate.
  - split; assumption.
Qed.

(** X5 on [update(10, 60)] followed by [update(50, 60)]. *)
Lemma tracked_statistics_are_samples_witness :
  let p' := after (Panel.update Sample.env (of_Z 50) (of_Z 60)
                     (Panel.updates Sample.env [(of_Z 10, of_Z 60)]
                        Sample.fps)) in
  Panel.min p' ∈ ([(of_Z 10, of_Z 60)].*1 ++ [of_Z 50])%list /\
  Panel.max p' ∈ (of_Z 0 :: [(of_Z 10, of_Z 60)].*1 ++ [of_Z 50])%list.
Proof.
  apply (tracked_statistics_are_samples Sample.env "FPS" "#0ff" "#002"
           (of_Z 80) (of_Z 48) false empty_document [(of_Z 10, of_Z 60)]
           (of_Z 50) (of_Z 60)).
  - repeat constructor.
  - reflexivity.
Defined.

(** X6.  The maximum starts at 0, so a series with no positive value never
    moves it: on a panel made by [StatsPanel], while every value passed is
    [<= 0] the tracked maximum is [+0]. *)
Theorem maximum_is_zero_without_positive_sample
    env name fg bg width height showMaximum (d : Document)
    (calls : list (num * num)) :
  Forall (fun c => le c.1 (of_Z 0) = true) calls ->
  Panel.max
    (Panel.updates env calls
       (Panel.StatsPanel env name fg bg width height showMaximum d).1)
  = of_Z 0.
Proof.
  induction calls as [|c calls IH] using rev_ind; intros Hc.
  - reflexivity.
  - apply Forall_app in Hc as [Hc Hlast].
    apply Forall_cons in Hlast as [Hlast _].
    rewrite updates_snoc, update_max, IH by assumption.
    now apply Math_max_zero_nonpos.
Qed.

(** X6 on [update(-5, 60)] followed by [update(-0, 60)]. *)
Lemma maximum_is_zero_without_positive_sample_witness :
  Panel.max
    (Panel.updates Sample.env
       [(of_Z (-5), of_Z 60); (S754_zero true, of_Z 60)]
       (Panel.StatsPanel Sample.env "FPS" "#0ff" "#002" (of_Z 80) (of_Z 48)
          false empty_document).1)
  = of_Z 0.
Proof.
  apply (maximum_is_zero_without_positive_sample Sample.env "FPS" "#0ff"
           "#002" (of_Z 80) (of_Z 48) false empty_document).
  repeat constructor.
Defined.

(** X15.  Once a value has been passed the header range is ordered: on a
    panel made by [StatsPanel], after a non-empty sequence of updates whose
    values are not [NaN], the tracked minimum is [<=] the tracked maximum.
    (Before the first update it is not: the minimum is [Infinity] and the
    maximum 0.) *)
Theorem minimum_is_below_maximum
    env name fg bg width height showMaximum (d : Document)
    (calls : list (num * num)) (value maxValue : num) :
  Forall (fun c => isNaN c.1 = false) calls ->
  isNaN value = false ->
  let p0 := (Panel.StatsPanel env name fg bg width height showMaximum d).1 in
  let p' := after (Panel.update env value maxValue
                     (Panel.updates env calls p0)) in
  le (Panel.min p') (Panel.max p') = true /\
  le (Panel.min p0) (Panel.max p0) = false.
Proof.
  intros Hc Hv p0 p'. split; [|reflexivity].
  pose proof (updates_tracks env calls p0 [] Hc
                (StatsPanel_tracks env name fg bg width height showMaximum d))
    as Ht.
  simpl in Ht. destruct Ht as (Nmin & Nmax & _).
  destruct (Math_min_pair _ value Nmin Hv) as (_ & L & _).
  destruct (Math_max_pair _ value Nmax Hv) as (_ & G & _).
  unfold p'. rewrite update_min, update_max.
  eapply num_le_trans; [exact L|exact G].
Qed.

(** X15 on [update(10, 60)] followed by [update(50, 60)]. *)
Lemma minimum_is_below_maximum_witness :
  let p0 := Sample.fps in
  let p' := after (Panel.update Sample.env (of_Z 50) (of_Z 60)
                     (Panel.updates Sample.env [(of_Z 10, of_Z 60)] p0)) in
  le (Panel.min p') (Panel.max p') = true /\
  le (Panel.min p0) (Panel.max p0) = false.
Proof.
  apply (minimum_is_below_maximum Sample.env "FPS" "#0ff" "#002" (of_Z 80)
           (of_Z 48) false empty_document [(of_Z 10, of_Z 60)]
           (of_Z 50) (of_Z 60)).
  - repeat constructor.
  - reflexivity.
Defined.

(* ================================================================= *)
(** ** The height of the cap at the two ends of the scale *)

(** X7.  A sample equal to the nominal maximum draws a full bar: on a
    panel whose canvas has a non-zero width and height, when [value] is
    finite and not zero and the graph height is finite,
    [update(value, value)] covers the new column with a rectangle of height
    zero, because [value / value] is exactly 1. *)
Theorem sample_at_maximum_draws_full_bar
    (env : Env) (value : num) (p : Panel.t) :
  Panel.usable p = true ->
  isFinite value = true -> truthy value = true ->
  isFinite (Panel.GRAPH_HEIGHT p) = true ->
  exists erase text scroll column sign,
    Panel.drawn p (after (Panel.update env value value p)) =
    [ erase; text; scroll; column;
      FillRect (Panel.bg p) nine_tenths
        (Panel.GRAPH_X p + Panel.GRAPH_WIDTH p - Panel.PR p)%num
        (Panel.GRAPH_Y p) (Panel.PR p) (S754_zero sign) ].
Proof.
  intros Hu Hf Ht Hg. rewrite update_drawn, (usable_returns p Hu).
  destruct value as [s|s| |s m e]; try discriminate.
  rewrite div_self.
  change (of_Z 1 - of_Z 1)%num with (S754_zero false).
  destruct (Panel.GRAPH_HEIGHT p) as [sh|sh| |sh mh eh]; try discriminate.
  - eexists _, _, _, _, _. reflexivity.
  - eexists _, _, _, _, _. reflexivity.
Qed.

(** X7 on [update(60, 60)] on a new panel. *)
Lemma sample_at_maximum_draws_full_bar_witness :
  exists erase text scroll column sign,
    Panel.drawn Sample.fps
      (after (Panel.update Sample.env (of_Z 60) (of_Z 60) Sample.fps)) =
    [ erase; text; scroll; column;
      FillRect (Panel.bg Sample.fps) nine_tenths
        (Panel.GRAPH_X Sample.fps + Panel.GRAPH_WIDTH Sample.fps
         - Panel.PR Sample.fps)%num
        (Panel.GRAPH_Y Sample.fps) (Panel.PR Sample.fps)
        (S754_zero sign) ].
Proof.
  apply (sample_at_maximum_draws_full_bar Sample.env (of_Z 60) Sample.fps);
    reflexivity.
Defined.

(** X8.  A zero sample draws no bar.  On a panel whose canvas has a
    non-zero width and height, when [value] is a zero, [maxValue] is
    neither zero nor [NaN] and the graph height is a genuine double, the
    cover that [update(value, maxValue)] puts over the new column has
    height [round(GRAPH_HEIGHT)], because [1 - 0 / maxValue] is exactly 1
    and [1 * GRAPH_HEIGHT] is exactly [GRAPH_HEIGHT].  When the graph height
    is an integer the cover is the rectangle of the column itself: it covers
    the whole column. *)
Theorem zero_sample_covers_whole_column
    (env : Env) (sign : bool) (maxValue : num) (p : Panel.t) :
  Panel.usable p = true ->
  truthy maxValue = true ->
  valid (Panel.GRAPH_HEIGHT p) = true ->
  (exists erase text scroll column,
     Panel.drawn p (after (Panel.update env (S754_zero sign) maxValue p)) =
     [ erase; text; scroll; column;
       FillRect (Panel.bg p) nine_tenths
         (Panel.GRAPH_X p + Panel.GRAPH_WIDTH p - Panel.PR p)%num
         (Panel.GRAPH_Y p) (Panel.PR p)
         (Math_round (Panel.GRAPH_HEIGHT p)) ]) /\
  (is_Some (to_integer (Panel.GRAPH_HEIGHT p)) ->
   exists erase text scroll,
     Panel.drawn p (after (Panel.update env (S754_zero sign) maxValue p)) =
     [ erase; text; scroll;
       FillRect (Panel.evaluateStatsColor p (S754_zero sign) maxValue)
         (of_Z 1)
         (Panel.GRAPH_X p + Panel.GRAPH_WIDTH p - Panel.PR p)%num
         (Panel.GRAPH_Y p) (Panel.PR p) (Panel.GRAPH_HEIGHT p);
       FillRect (Panel.bg p) nine_tenths
         (Panel.GRAPH_X p + Panel.GRAPH_WIDTH p - Panel.PR p)%num
         (Panel.GRAPH_Y p) (Panel.PR p) (Panel.GRAPH_HEIGHT p) ]).
Proof.
  intros Hu Ht Hv. rewrite update_drawn, (usable_returns p Hu).
  assert (E : (of_Z 1 - S754_zero sign / maxValue)%num = of_Z 1).
  { destruct maxValue as [s|s| |s m e]; try discriminate; reflexivity. }
  rewrite E, mul_1_l by assumption. split.
  - eexists _, _, _, _. reflexivity.
  - intros Hint. rewrite (Math_round_integral_id _ Hv Hint).
    eexists _, _, _. reflexivity.
Qed.

(** X8 on [update(0, 60)] on a new panel, whose graph is 30 pixels
    high. *)
Lemma zero_sample_covers_whole_column_witness :
  (exists erase text scroll column,
     Panel.drawn Sample.fps
       (after (Panel.update Sample.env (S754_zero false) (of_Z 60)
                 Sample.fps)) =
     [ erase; text; scroll; column;
       FillRect "#002" nine_tenths (of_Z 76) (of_Z 15) (of_Z 1)
         (Math_round (of_Z 30)) ]) /\
  (exists erase text scroll,
     Panel.drawn Sample.fps
       (after (Panel.update Sample.env (S754_zero false) (of_Z 60)
                 Sample.fps)) =
     [ erase; text; scroll;
       FillRect "#0ff" (of_Z 1) (of_Z 76) (of_Z 15) (of_Z 1) (of_Z 30);
       FillRect "#002" nine_tenths (of_Z 76) (of_Z 15) (of_Z 1)
         (of_Z 30) ]).
Proof.
  destruct (zero_sample_covers_whole_column Sample.env false (of_Z 60)
              Sample.fps) as [H1 H2]; try reflexivity.
  split; [exact H1|]. apply H2. exists 30%Z. vm_compute. reflexivity.
Defined.

(* ================================================================= *)
(** ** Rounded numbers in the header and in the scale *)

Lemma template_of_integer env (y : num) (n : Z) :
  isFinite y = true -> to_integer y = Some n -> (Z.abs n < 2 ^ 53)%Z ->
  template env y = NilZero.string_of_int (Z.to_int n).
Proof.
  intros Hf Hn Hlt. unfold template, Number_toString.
  apply Z.ltb_lt in Hlt.
  destruct y as [s|s| |s m e]; try discriminate; now rewrite Hn, Hlt.
Qed.

(** X9.  For a value with a fractional part or of magnitude below 2^52 (a
    genuine double [(-1)^s m 2^e] with [e < 0]) the header starts with the
    decimal digits of [floor(value + 1/2)], then the name of the panel: the
    rounded value is printed as a plain integer. *)
Theorem header_starts_with_nearest_integer
    (env : Env) (s : bool) (m : positive) (e : Z) (maxValue : num)
    (p : Panel.t) :
  valid (S754_finite s m e) = true -> (e < 0)%Z ->
  exists erase style font baseline rest later,
    Panel.drawn p (after (Panel.update env (S754_finite s m e) maxValue p)) =
    erase ::
    FillText style (of_Z 1) font baseline
      (NilZero.string_of_int (Z.to_int (nearest_integer s m e)) +:+
       Panel.name p +:+ rest)
      (Panel.TEXT_X p) (Panel.TEXT_Y p) ::
    later.
Proof.
  intros Hv He. rewrite update_drawn.
  destruct (Math_round_integer s m e Hv He) as (Hn & Hf & Hlt).
  rewrite (template_of_integer env _ _ Hf Hn Hlt).
  destruct (Panel.showMaximum p).
  - rewrite !string_append_assoc. eexists _, _, _, _, _, _. reflexivity.
  - eexists _, _, _, _, _, _. reflexivity.
Qed.

(** X9 on [update(-2.5, 60)]: the header starts with [-2]. *)
Lemma header_starts_with_nearest_integer_witness :
  exists erase style font baseline rest later,
    Panel.drawn Sample.fps
      (after (Panel.update Sample.env
                (S754_finite true 5629499534213120 (-51)) (of_Z 60)
                Sample.fps)) =
    erase ::
    FillText style (of_Z 1) font baseline
      (NilZero.string_of_int
         (Z.to_int (nearest_integer true 5629499534213120 (-51))) +:+
       Panel.name Sample.fps +:+ rest)
      (Panel.TEXT_X Sample.fps) (Panel.TEXT_Y Sample.fps) ::
    later.
Proof.
  apply (header_starts_with_nearest_integer Sample.env true
           5629499534213120 (-51) (of_Z 60) Sample.fps).
  - reflexivity.
  - lia.
Defined.

Lemma Math_round_integral (x : num) :
  valid x = true ->
  isNaN (Math_round x) = isNaN x /\
  (x = Infinity \/ x = neg_Infinity \/ isNaN x = true \/
   is_Some (to_integer (Math_round x))).
Proof.
  intros Hv. destruct x as [s|[]| |s m e].
  - split; [reflexivity|]. right; right; right. now eexists.
  - split; [reflexivity|]. right; now left.
  - split; [reflexivity|]. now left.
  - split; [reflexivity|]. right; right; now left.
  - destruct (Z.leb_spec 0 e) as [He|He].
    + assert (E : Math_round (S754_finite s m e) = S754_finite s m e).
      { unfold Math_round. destruct (Z.leb_spec 0 e); [reflexivity|lia]. }
      rewrite E. split; [reflexivity|]. right; right; right.
      unfold to_integer. destruct (Z.leb_spec 0 e); [now eexists|lia].
    + destruct (Math_round_integer s m e Hv He) as (Hn & Hf & _).
      split.
      * destruct (Math_round (S754_finite s m e)); try discriminate;
          reflexivity.
      * right; right; right. rewrite Hn. now eexists.
Qed.

(** X10.  The scale factor is 1 when the page has no device pixel ratio or
    a ratio of zero or [NaN]; and for every genuine double it is never
    [NaN] and never fractional: it is an integer or an infinity. *)
Theorem scale_factor_is_integral
    env name fg bg width height showMaximum (d : Document) :
  from_option valid true (devicePixelRatio env) = true ->
  let PR := Panel.PR
              (Panel.StatsPanel env name fg bg width height showMaximum d).1 in
  (if from_option truthy false (devicePixelRatio env)
   then True else PR = of_Z 1) /\
  isNaN PR = false /\
  (PR = Infinity \/ PR = neg_Infinity \/ is_Some (to_integer PR)).
Proof.
  intros Hv PR. unfold PR. simpl. unfold Panel.pixel_ratio.
  destruct (devicePixelRatio env) as [r|]; simpl in *.
  - destruct (truthy r) eqn:Ht.
    + split; [exact I|].
      destruct (Math_round_integral r Hv) as (HN & HI).
      assert (Hr : isNaN r = false) by (destruct r; try discriminate; reflexivity).
      split; [congruence|].
      destruct HI as [->|[->|[HI|HI]]];
        [now left|right; now left|congruence|right; now right].
    + split; [reflexivity|]. split; [reflexivity|].
      right; right. now eexists.
  - split; [reflexivity|]. split; [reflexivity|].
    right; right. now eexists.
Qed.

(** X10 on a page without [devicePixelRatio]. *)
Lemma scale_factor_is_integral_witness :
  let env := {| devicePixelRatio := None; performance_memory := false;
                shortest_decimal := fun _ => "" |} in
  let PR := Panel.PR
              (Panel.StatsPanel env "FPS" "#0ff" "#002" (of_Z 80) (of_Z 48)
                 false empty_document).1 in
  (if from_option truthy false (devicePixelRatio env)
   then True else PR = of_Z 1) /\
  isNaN PR = false /\
  (PR = Infinity \/ PR = neg_Infinity \/ is_Some (to_integer PR)).
Proof.
  intros env.
  apply (scale_factor_is_integral env "FPS" "#0ff" "#002" (of_Z 80) (of_Z 48)
           false empty_document).
  reflexivity.
Defined.

(* ================================================================= *)
(** ** What the overlay operations leave alone *)

Section OverlayFrames.

Implicit Types (d : Document) (c n : node) (cs : list node)
  (s : Overlay.Scope.t).

Lemma showPanel_loop_fresh id i cs d :
  fresh (Overlay.showPanel_loop id i cs d) = fresh d.
Proof.
  revert i d. induction cs as [|x cs IH]; intros i d; simpl; [reflexivity|].
  now rewrite IH.
Qed.

Lemma length_filter_ne (x : node) (l : list node) :
  NoDup l ->
  length (filter (fun y => y ≠ x) l) + (if decide (x ∈ l) then 1 else 0) =
  length l.
Proof.
  induction l as [|y l IH]; intros Hnd; [reflexivity|].
  apply NoDup_cons in Hnd as [Hy Hnd]. specialize (IH Hnd).
  destruct (decide (y = x)) as [->|Hne].
  - rewrite filter_cons_False by (intros H; now apply H).
    rewrite filter_ne_id in * by assumption.
    destruct (decide (x ∈ x :: l)) as [_|Hn]; [simpl; lia|].
    exfalso. apply Hn. now left.
  - rewrite filter_cons_True by assumption. simpl.
    destruct (decide (x ∈ l)) as [Hin|Hin];
      destruct (decide (x ∈ y :: l)) as [Hin'|Hin']; try lia.
    + exfalso. apply Hin'. now right.
    + exfalso. apply elem_of_cons in Hin' as [->|]; [now apply Hne|].
      contradiction.
Qed.

Lemma filter_ne_snoc (x : node) (l : list node) :
  filter (fun y => y ≠ x) (filter (fun y => y ≠ x) l ++ [x])%list =
  filter (fun y => y ≠ x) l.
Proof.
  rewrite filter_app, list_filter_filter.
  rewrite filter_cons_False by (intros H; now apply H).
  rewrite filter_nil, app_nil_r.
  apply list_filter_iff. intros y. tauto.
Qed.

End OverlayFrames.

(** X11.  [showPanel] writes the [display] of the container's children and
    nothing else: an element that is not a child of the container keeps its
    [display], every element keeps its children, and no element is made. *)
Theorem showPanel_touches_children_only
    (s : Overlay.Scope.t) (id : Z) (n : node) :
  n ∉ Overlay.panels s ->
  let s' := Overlay.showPanel id s in
  display_of (Overlay.Scope.document s') n =
    display_of (Overlay.Scope.document s) n /\
  (forall c, children_of (Overlay.Scope.document s') c =
             children_of (Overlay.Scope.document s) c) /\
  fresh (Overlay.Scope.document s') = fresh (Overlay.Scope.document s) /\
  Overlay.Scope.container s' = Overlay.Scope.container s.
Proof.
  intros Hn s'. split_and!.
  - apply showPanel_loop_other. exact Hn.
  - intros c. apply showPanel_loop_children.
  - apply showPanel_loop_fresh.
  - reflexivity.
Qed.

(** X11 on the default overlay: [showPanel(1)] leaves the container's own
    [display] as it was. *)
Lemma showPanel_touches_children_only_witness :
  let s := Sample.stats.2 in
  let s' := Overlay.showPanel 1 s in
  display_of (Overlay.Scope.document s') 0 =
    display_of (Overlay.Scope.document s) 0 /\
  (forall c, children_of (Overlay.Scope.document s') c =
             children_of (Overlay.Scope.document s) c) /\
  fresh (Overlay.Scope.document s') = fresh (Overlay.Scope.document s) /\
  Overlay.Scope.container s' = Overlay.Scope.container s.
Proof.
  apply (showPanel_touches_children_only Sample.stats.2 1 0).
  apply (bool_decide_unpack _). vm_compute. exact I.
Defined.

(** X12.  [addPanel] never registers a panel twice.  On an overlay in
    order, for a panel whose canvas is an element that is not the container
    and does not contain it (the children the DOM accepts), the added
    canvas becomes the last child of the container; if it was a child
    already it is moved, and the number of panels is unchanged, otherwise
    it grows by one.  No child occurs twice afterwards; the DOM accepts the
    same panel again, and adding it again changes nothing. *)
Theorem addPanel_moves_a_registered_panel
    (s : Overlay.Scope.t) (panel : Panel.t) :
  Overlay.well_formed s ->
  is_Some (elements (Overlay.Scope.document s) !! Panel.dom panel) ->
  Panel.dom panel ≠ Overlay.Scope.container s ->
  ~ contains (Overlay.Scope.document s) (Panel.dom panel)
      (Overlay.Scope.container s) ->
  let s1 := (Overlay.addPanel panel s).2 in
  let s2 := (Overlay.addPanel panel s1).2 in
  is_Some (elements (Overlay.Scope.document s1) !! Panel.dom panel) /\
  ~ contains (Overlay.Scope.document s1) (Panel.dom panel)
      (Overlay.Scope.container s1) /\
  Overlay.panels s1 =
    (filter (fun x => x ≠ Panel.dom panel) (Overlay.panels s)
       ++ [Panel.dom panel])%list /\
  NoDup (Overlay.panels s1) /\
  length (Overlay.panels s1) =
    length (Overlay.panels s) +
    (if decide (Panel.dom panel ∈ Overlay.panels s) then 0 else 1) /\
  Overlay.panels s2 = Overlay.panels s1.
Proof.
  intros (Hc & Hnd & Hin) Hel Hne Hacc s1 s2.
  assert (H1 : Overlay.panels s1 =
               (filter (fun x => x ≠ Panel.dom panel) (Overlay.panels s)
                  ++ [Panel.dom panel])%list)
    by (apply addPanel_panels; exact Hc).
  split_and!.
  - now apply addPanel_elements.
  - intros H. apply Hacc. revert H. apply contains_appendChild.
  - exact H1.
  - rewrite H1. apply NoDup_app. split_and!.
    + now apply NoDup_filter.
    + intros x Hx Hx'. apply list_elem_of_filter in Hx as [Hx _].
      apply list_elem_of_singleton in Hx'. contradiction.
    + apply NoDup_singleton.
  - rewrite H1, length_app. simpl.
    pose proof (length_filter_ne (Panel.dom panel) _ Hnd) as Hl.
    destruct (decide (Panel.dom panel ∈ Overlay.panels s)); lia.
  - unfold s2. rewrite addPanel_panels.
    + rewrite H1. now rewrite filter_ne_snoc.
    + now apply addPanel_elements.
Qed.

(** X12 on the default overlay: adding the FPS panel again moves it behind
    the MS panel. *)
Lemma addPanel_moves_a_registered_panel_witness :
  let s := Sample.stats.2 in
  let panel := Overlay.fpsPanel Sample.stats.1 in
  let s1 := (Overlay.addPanel panel s).2 in
  let s2 := (Overlay.addPanel panel s1).2 in
  is_Some (elements (Overlay.Scope.document s1) !! Panel.dom panel) /\
  ~ contains (Overlay.Scope.document s1) (Panel.dom panel)
      (Overlay.Scope.container s1) /\
  Overlay.panels s1 =
    (filter (fun x => x ≠ Panel.dom panel) (Overlay.panels s)
       ++ [Panel.dom panel])%list /\
  NoDup (Overlay.panels s1) /\
  length (Overlay.panels s1) =
    length (Overlay.panels s) +
    (if decide (Panel.dom panel ∈ Overlay.panels s) then 0 else 1) /\
  Overlay.panels s2 = Overlay.panels s1.
Proof.
  apply (addPanel_moves_a_registered_panel Sample.stats.2
           (Overlay.fpsPanel Sample.stats.1)).
  - unfold Overlay.well_formed. apply (bool_decide_unpack _).
    vm_compute. exact I.
  - apply (bool_decide_unpack _). vm_compute. exact I.
  - apply (bool_decide_unpack _). vm_compute. exact I.
  - intros H. apply contains_leaf in H; [|vm_compute; reflexivity].
    vm_compute in H. discriminate H.
Defined.

(* ================================================================= *)
(** ** Every overlay a host can reach *)

Section Reachable.

Variable env : Env.
Variables width height : num.
Variable showMaximum : bool.
Variable d : Document.

Implicit Types (s : Overlay.Scope.t).

Lemma Stats_fresh :
  fresh (Overlay.Scope.document
           (Overlay.Stats env width height showMaximum d).2) =
  (if performance_memory env then 4 else 3) + fresh d.
Proof.
  rewrite Stats_eq. cbn [snd]. unfold Overlay.showPanel.
  cbn [Overlay.Scope.document]. rewrite showPanel_loop_fresh.
  destruct (performance_memory env); reflexivity.
Qed.

(** Making a panel in the document of an overlay registers nothing. *)
Lemma StatsPanel_keeps_overlay env' name fg bg w h sm s :
  Overlay.well_formed s ->
  Overlay.Scope.container s < fresh (Overlay.Scope.document s) ->
  let s' := Overlay.with_document
              (Panel.StatsPanel env' name fg bg w h sm
                 (Overlay.Scope.document s)).2 s in
  Overlay.well_formed s' /\ Overlay.panels s' = Overlay.panels s /\
  fresh (Overlay.Scope.document s') = S (fresh (Overlay.Scope.document s)).
Proof.
  intros (Hc & Hnd & Hin) Hlt s'.
  assert (HP2 : exists css,
             Overlay.Scope.document s' =
             set_cssText (fresh (Overlay.Scope.document s)) css
               (createElement "canvas" (Overlay.Scope.document s)).2)
    by (eexists; reflexivity).
  destruct HP2 as [css HP2].
  assert (Hp : Overlay.panels s' = Overlay.panels s).
  { unfold Overlay.panels. rewrite HP2.
    change (Overlay.Scope.container s') with (Overlay.Scope.container s).
    rewrite children_of_set_cssText, children_of_createElement.
    destruct (decide (fresh (Overlay.Scope.document s) =
                      Overlay.Scope.container s)); [lia|reflexivity]. }
  split_and!.
  - unfold Overlay.well_formed. rewrite Hp, HP2.
    change (Overlay.Scope.container s') with (Overlay.Scope.container s).
    split_and!.
    + rewrite elements_set_cssText. apply elements_createElement. now right.
    + assumption.
    + eapply Forall_impl; [exact Hin|]. intros c Hx.
      rewrite elements_set_cssText. apply elements_createElement. now right.
  - exact Hp.
  - rewrite HP2. reflexivity.
Qed.

Lemma elem_of_addPanel panel s (x : node) :
  is_Some (elements (Overlay.Scope.document s) !! Overlay.Scope.container s) ->
  x ∈ Overlay.panels s -> x ∈ Overlay.panels (Overlay.addPanel panel s).2.
Proof.
  intros Hc Hx. rewrite addPanel_panels by assumption.
  apply elem_of_app. destruct (decide (x = Panel.dom panel)) as [->|Hne].
  - right. now left.
  - left. apply list_elem_of_filter. now split.
Qed.

Lemma reachable_invariant s :
  reachable env width height showMaximum d s ->
  Overlay.well_formed s /\
  Overlay.Scope.container s = fresh d /\
  fresh d < fresh (Overlay.Scope.document s) /\
  S (fresh d) ∈ Overlay.panels s /\ S (S (fresh d)) ∈ Overlay.panels s.
Proof.
  induction 1 as [|id s _ IH|panel s _ IH Hel Hne|env' name fg bg w h sm s _ IH].
  - destruct (Stats_spec env width height showMaximum d)
      as (_ & Hc & _ & _ & _ & _ & _ & _ & _ & _ & Hp & Hwf & _).
    split_and!.
    + exact Hwf.
    + exact Hc.
    + rewrite Stats_fresh. destruct (performance_memory env); lia.
    + rewrite Hp. now left.
    + rewrite Hp. right. now left.
  - destruct IH as (Hwf & Hc & Hf & H1 & H2). split_and!.
    + now apply showPanel_well_formed.
    + exact Hc.
    + unfold Overlay.showPanel. cbn [Overlay.Scope.document].
      now rewrite showPanel_loop_fresh.
    + now rewrite showPanel_panels.
    + now rewrite showPanel_panels.
  - destruct IH as (Hwf & Hc & Hf & H1 & H2). split_and!.
    + now apply addPanel_well_formed.
    + exact Hc.
    + exact Hf.
    + apply elem_of_addPanel; [apply Hwf|assumption].
    + apply elem_of_addPanel; [apply Hwf|assumption].
  - destruct IH as (Hwf & Hc & Hf & H1 & H2).
    destruct (StatsPanel_keeps_overlay env' name fg bg w h sm s Hwf
                ltac:(rewrite Hc; exact Hf)) as (Hwf' & Hp & Hf').
    split_and!.
    + exact Hwf'.
    + exact Hc.
    + rewrite Hf'. lia.
    + now rewrite Hp.
    + now rewrite Hp.
Qed.

End Reachable.

(** X13.  Every overlay a host can reach from [Stats] is in order: the
    container is the element [Stats] made, it and its children are elements
    of the document, no child occurs twice, and the FPS and MS panels are
    still registered, so an overlay always has at least two panels: no
    operation removes one. *)
Theorem reachable_overlay_keeps_its_panels
    env width height showMaximum (d : Document) (s : Overlay.Scope.t) :
  reachable env width height showMaximum d s ->
  let r := Overlay.Stats env width height showMaximum d in
  Overlay.well_formed s /\
  Overlay.Scope.container s = Overlay.dom r.1 /\
  Panel.dom (Overlay.fpsPanel r.1) ∈ Overlay.panels s /\
  Panel.dom (Overlay.msPanel r.1) ∈ Overlay.panels s /\
  2 <= length (Overlay.panels s).
Proof.
  intros Hr r.
  destruct (reachable_invariant env width height showMaximum d s Hr)
    as (Hwf & Hc & _ & H1 & H2).
  destruct (Stats_spec env width height showMaximum d)
    as (Hd & _ & _ & _ & D1 & _ & D2 & _).
  fold r in Hd, D1, D2.
  split_and!.
  - exact Hwf.
  - now rewrite Hd.
  - now rewrite D1.
  - now rewrite D2.
  - assert (Hsub : [S (fresh d); S (S (fresh d))] ⊆+ Overlay.panels s).
    { apply NoDup_submseteq.
      - repeat (apply NoDup_cons; split;
                [rewrite ?not_elem_of_cons; repeat split;
                 try lia; apply not_elem_of_nil|]).
        apply NoDup_nil. exact I.
      - intros x Hx. apply elem_of_cons in Hx as [->|Hx]; [assumption|].
        apply list_elem_of_singleton in Hx as ->. assumption. }
    apply submseteq_length in Hsub. exact Hsub.
Qed.

(** X13 on the default overlay after [showPanel(1)]. *)
Lemma reachable_overlay_keeps_its_panels_witness :
  let s := Overlay.showPanel 1 Sample.stats.2 in
  let r := Overlay.Stats Sample.env (of_Z 80) (of_Z 48) false
             empty_document in
  Overlay.well_formed s /\
  Overlay.Scope.container s = Overlay.dom r.1 /\
  Panel.dom (Overlay.fpsPanel r.1) ∈ Overlay.panels s /\
  Panel.dom (Overlay.msPanel r.1) ∈ Overlay.panels s /\
  2 <= length (Overlay.panels s).
Proof.
  apply (reachable_overlay_keeps_its_panels Sample.env (of_Z 80) (of_Z 48)
           false empty_document (Overlay.showPanel 1 Sample.stats.2)).
  apply reach_showPanel, reach_Stats.
Defined.

(* ================================================================= *)
(** ** Stats and the rest of the document *)

Lemma StatsPanel_appended_display env name fg bg width height showMaximum
    (c : node) (d : Document) (n : node) :
  let P := Panel.StatsPanel env name fg bg width height showMaximum d in
  display_of (appendChild c (Panel.dom P.1) P.2) n =
  if decide (fresh d = n) then "" else display_of d n.
Proof.
  intros P.
  assert (HP2 : exists css,
             P.2 = set_cssText (fresh d) css (createElement "canvas" d).2)
    by (eexists; reflexivity).
  destruct HP2 as [css ->].
  rewrite display_of_appendChild, display_of_set_cssText.
  rewrite display_of_createElement.
  destruct (decide (fresh d = n)); reflexivity.
Qed.

(** X14.  [Stats] makes three new elements, or four with the memory API,
    and changes the [display] of none of the elements the document had. *)
Theorem Stats_leaves_the_document_alone
    env width height showMaximum (d : Document) (n : node) :
  n < fresh d ->
  let r := Overlay.Stats env width height showMaximum d in
  display_of (Overlay.Scope.document r.2) n = display_of d n /\
  fresh (Overlay.Scope.document r.2) =
    (if performance_memory env then 4 else 3) + fresh d.
Proof.
  intros Hn r. split; [|apply Stats_fresh].
  destruct (Stats_spec env width height showMaximum d)
    as (_ & _ & _ & _ & _ & _ & _ & _ & _ & _ & Hp & _).
  fold r in Hp. revert Hp. unfold r. rewrite Stats_eq. cbn [snd].
  rewrite showPanel_panels. intros Hp.
  unfold Overlay.showPanel. cbn [Overlay.Scope.document Overlay.Scope.container].
  unfold Overlay.panels in Hp.
  cbn [Overlay.Scope.document Overlay.Scope.container] in Hp.
  rewrite showPanel_loop_other.
  - destruct (performance_memory env);
      rewrite !StatsPanel_appended_display;
      repeat (destruct (decide _) as [E|_];
              [simpl in E; lia|]);
      rewrite display_of_set_cssText, display_of_createElement;
      repeat (destruct (decide _) as [E|_]; [simpl in E; lia|]);
      reflexivity.
  - rewrite Hp. destruct (performance_memory env);
      rewrite ?not_elem_of_cons; repeat split; try lia;
      apply not_elem_of_nil.
Qed.

(** X14 on a document that has one element. *)
Lemma Stats_leaves_the_document_alone_witness :
  let d := (createElement "body" empty_document).2 in
  let r := Overlay.Stats Sample.env (of_Z 80) (of_Z 48) false d in
  display_of (Overlay.Scope.document r.2) 0 = display_of d 0 /\
  fresh (Overlay.Scope.document r.2) =
    (if performance_memory Sample.env then 4 else 3) + fresh d.
Proof.
  apply (Stats_leaves_the_document_alone Sample.env (of_Z 80) (of_Z 48)
           false (createElement "body" empty_document).2 0).
  simpl. lia.
Defined.
